(** * The Vercel gateway of [src/index.ts], embedded and verified

    The gateway is an Express application: an authentication guard in front
    of ten route handlers, each of which validates the request body, calls
    the remote platform through an axios client and reshapes the answer.
    Values are untyped JSON ([any] in the source), so the embedding starts
    with the fragment of JavaScript the handlers use: truthiness, property
    reads, string conversion, the exceptions of the language.  Handlers live
    in a small monad that threads the remote platform's state, records every
    outbound call and carries exceptions to the enclosing [try]/[catch].

    The embedding starts at the middleware that applies the guard and ends
    with the error-handling middleware and the 404 fallback.  The packages
    registered in front of the guard ([helmet], [cors], the JSON body
    parser, the rate limiter) belong to no source file of the repository;
    the model takes the request as they hand it on, with [req.body] parsed.
    Calls to the logger have no effect on answers or outbound calls and are
    left out. *)

From stdpp Require Import base option list strings gmap pretty.
From Stdlib Require Import Ascii.

Local Open Scope string_scope.
Local Open Scope list_scope.
Local Set Warnings "-register-all".

(** ** JavaScript values *)

Module Js.

(** A double is seen by the gateway through two observations only, its
    truthiness (false for [0], [-0] and [NaN]) and its [String(n)] text. *)
Record JsNumber := { num_truthy : bool; num_text : string }.

(** JSON documents extended with [undefined].  An object lists its own
    properties in enumeration order, as [JSON.parse] leaves them. *)
Inductive JValue :=
| JUndefined
| JNull
| JBool (b : bool)
| JNum (n : JsNumber)
| JStr (s : string)
| JArr (items : list JValue)
| JObj (fields : list (string * JValue)).

(** What a [throw] carries.  Every exception of the program is an instance
    of [Error]; a rejected axios request also carries [response?.data]. *)
Inductive Exn :=
| TypeError (message : string)
| Error (message : string)
| AxiosError (message : string) (response_data : JValue).

(** Result of an expression that may throw. *)
Inductive Completion (A : Type) :=
| Normal (a : A)
| Throw (e : Exn).
Arguments Normal {A} a.
Arguments Throw {A} e.

Definition cbind {A B} (c : Completion A) (k : A -> Completion B) : Completion B :=
  match c with
  | Normal a => k a
  | Throw e => Throw e
  end.

Declare Scope js_scope.
Delimit Scope js_scope with js.
Notation "'let!' x ':=' c 'in' k" := (cbind c (fun x => k))
  (at level 10, x name, c at level 100, k at level 200) : js_scope.
Local Open Scope js_scope.

(** [cmap f l] is [l.map(f)] for a callback that may throw: the first
    exception aborts the traversal. *)
Fixpoint cmap {A B} (f : A -> Completion B) (l : list A) : Completion (list B) :=
  match l with
  | [] => Normal []
  | x :: l' =>
      let! y := f x in
      let! ys := cmap f l' in
      Normal (y :: ys)
  end.

(** [ToBoolean]. *)
Definition truthy (v : JValue) : bool :=
  match v with
  | JUndefined | JNull => false
  | JBool b => b
  | JNum n => num_truthy n
  | JStr s => negb (String.eqb s "")
  | JArr _ | JObj _ => true
  end.

Definition nullish (v : JValue) : bool :=
  match v with
  | JUndefined | JNull => true
  | _ => false
  end.

(** [a || b] on values. *)
Definition or_else (a b : JValue) : JValue := if truthy a then a else b.

(** [v === 'lit'] for a string literal. *)
Definition is_string (lit : string) (v : JValue) : bool :=
  match v with
  | JStr s => String.eqb s lit
  | _ => false
  end.

Fixpoint own (fields : list (string * JValue)) (k : string) : option JValue :=
  match fields with
  | [] => None
  | (k', v) :: rest => if String.eqb k' k then Some v else own rest k
  end.

Definition type_name (v : JValue) : string :=
  match v with
  | JNull => "null"
  | _ => "undefined"
  end.

(** [v.k] for one of the property names the handlers read ([name], [repo],
    [payload], [text], ...).  None of them names a property that the
    prototypes of objects, arrays, numbers or booleans supply, so only own
    properties of objects answer.  (On a string, [link] alone finds a
    method of the prototype; a method is left out of a JSON answer just as
    [undefined] is.)  Reading through [null] or [undefined] throws; the
    message is V8's. *)
Definition get (v : JValue) (k : string) : Completion JValue :=
  match v with
  | JUndefined | JNull =>
      Throw (TypeError ("Cannot read properties of " +:+ type_name v +:+
                        " (reading '" +:+ k +:+ "')"))
  | JObj fields => Normal (default JUndefined (own fields k))
  | _ => Normal JUndefined
  end.

(** [v?.k]. *)
Definition get_opt (v : JValue) (k : string) : JValue :=
  match v with
  | JObj fields => default JUndefined (own fields k)
  | _ => JUndefined
  end.

(** [const { first, ... } = source]: destructuring requires a value that
    is neither [null] nor [undefined]. *)
Definition destructure (first source : string) (v : JValue) : Completion JValue :=
  if nullish v
  then Throw (TypeError ("Cannot destructure property '" +:+ first +:+ "' of '" +:+
                         source +:+ "' as it is " +:+ type_name v +:+ "."))
  else Normal v.

Definition join (sep : string) (parts : list string) : string :=
  match parts with
  | [] => ""
  | p :: ps => fold_left (fun acc q => acc +:+ sep +:+ q) ps p
  end.

(** [ToString], as applied by a template literal or by a computed property
    key.  A plain object answers ["[object Object]"] unless an own property
    shadows [toString] with a JSON value, which is not callable; then
    [valueOf] gives the object back and the conversion throws.  An array
    joins its elements with commas, [null] and [undefined] as empty. *)
Fixpoint to_string (v : JValue) : Completion string :=
  match v with
  | JUndefined => Normal "undefined"
  | JNull => Normal "null"
  | JBool b => Normal (if b then "true" else "false")
  | JNum n => Normal (num_text n)
  | JStr s => Normal s
  | JArr items =>
      let! parts :=
        (fix each (l : list JValue) : Completion (list string) :=
           match l with
           | [] => Normal []
           | x :: l' =>
               let! p := (if nullish x then Normal "" else to_string x) in
               let! ps := each l' in
               Normal (p :: ps)
           end) items in
      Normal (join "," parts)
  | JObj fields =>
      match own fields "toString" with
      | Some _ => Throw (TypeError "Cannot convert object to primitive value")
      | None => Normal "[object Object]"
      end
  end.

(** [String.prototype.toLowerCase], on the letters A to Z.  Its only use is
    in front of [includes('error')]; outside ASCII no character lowers to
    one of [e], [r], [o], so that test sees what JavaScript sees. *)
Definition lower_char (c : ascii) : ascii :=
  let n := nat_of_ascii c in
  if (65 <=? n)%nat && (n <=? 90)%nat then ascii_of_nat (n + 32) else c.

Fixpoint toLowerCase (s : string) : string :=
  match s with
  | EmptyString => EmptyString
  | String c s' => String (lower_char c) (toLowerCase s')
  end.

(** [s.includes(pat)]. *)
Fixpoint includes (s pat : string) : bool :=
  if String.prefix pat s then true
  else match s with
       | EmptyString => false
       | String _ s' => includes s' pat
       end.

(** [Object.entries(v)] for a value that is not [null] or [undefined]:
    the own enumerable properties.  An array answers its indices, a string
    its characters (code units, which are the bytes of ASCII text); numbers
    and booleans have none. *)
Fixpoint indexed {A} (i : nat) (l : list A) : list (string * A) :=
  match l with
  | [] => []
  | x :: l' => (pretty i, x) :: indexed (S i) l'
  end.

Definition chars (s : string) : list JValue :=
  map (fun c => JStr (String c EmptyString)) (String.list_ascii_of_string s).

Definition entries (v : JValue) : list (string * JValue) :=
  match v with
  | JObj fields => fields
  | JArr items => indexed 0 items
  | JStr s => indexed 0 (chars s)
  | _ => []
  end.

(** [decodeURIComponent(s)], [None] where it throws a [URIError].  Every
    [%] has to start an escape of two hexadecimal digits, and the octets of
    the escapes have to spell well-formed UTF-8: an octet below 128 stands
    alone, and a lead octet is followed by the escaped continuation octets
    that the encoding allows after it (no overlong form, no surrogate,
    nothing above U+10FFFF).  The result holds the octets in place of the
    escapes. *)
Definition hex_value (c : ascii) : option nat :=
  let n := nat_of_ascii c in
  if (48 <=? n)%nat && (n <=? 57)%nat then Some (n - 48)
  else if (65 <=? n)%nat && (n <=? 70)%nat then Some (n - 55)
  else if (97 <=? n)%nat && (n <=? 102)%nat then Some (n - 87)
  else None.

(** The characters of a string, each as it is written ([false]) or as the
    octet of an escape ([true]). *)
Fixpoint unescape (s : string) : option (list (bool * nat)) :=
  match s with
  | EmptyString => Some []
  | String c rest =>
      if Ascii.eqb c "%" then
        match rest with
        | String h (String l rest') =>
            match hex_value h, hex_value l, unescape rest' with
            | Some a, Some b, Some items => Some ((true, 16 * a + b) :: items)
            | _, _, _ => None
            end
        | _ => None
        end
      else
        match unescape rest with
        | Some items => Some ((false, nat_of_ascii c) :: items)
        | None => None
        end
  end.

Definition continues (lo hi : nat) (item : bool * nat) : bool :=
  item.1 && (lo <=? item.2)%nat && (item.2 <=? hi)%nat.

Fixpoint well_formed (items : list (bool * nat)) : bool :=
  match items with
  | [] => true
  | (false, _) :: rest => well_formed rest
  | (true, b) :: rest =>
      if (b <? 128)%nat then well_formed rest
      else if (194 <=? b)%nat && (b <=? 223)%nat then
        match rest with
        | i1 :: rest' => continues 128 191 i1 && well_formed rest'
        | _ => false
        end
      else if (224 <=? b)%nat && (b <=? 239)%nat then
        match rest with
        | i1 :: i2 :: rest' =>
            continues (if (b =? 224)%nat then 160 else 128)
                      (if (b =? 237)%nat then 159 else 191) i1 &&
            continues 128 191 i2 && well_formed rest'
        | _ => false
        end
      else if (240 <=? b)%nat && (b <=? 244)%nat then
        match rest with
        | i1 :: i2 :: i3 :: rest' =>
            continues (if (b =? 240)%nat then 144 else 128)
                      (if (b =? 244)%nat then 143 else 191) i1 &&
            continues 128 191 i2 && continues 128 191 i3 && well_formed rest'
        | _ => false
        end
      else false
  end.

Definition decodeURIComponent (s : string) : option string :=
  match unescape s with
  | Some items =>
      if well_formed items
      then Some (String.string_of_list_ascii (map (fun item => ascii_of_nat item.2) items))
      else None
  | None => None
  end.

(** [v.method(...)] for an array method ([map], [filter]): only arrays have
    one, a JSON value stored under the same name is not callable. *)
Definition array_of (expr method : string) (v : JValue) : Completion (list JValue) :=
  match v with
  | JArr items => Normal items
  | JUndefined | JNull =>
      Throw (TypeError ("Cannot read properties of " +:+ type_name v +:+
                        " (reading '" +:+ method +:+ "')"))
  | _ => Throw (TypeError (expr +:+ "." +:+ method +:+ " is not a function"))
  end.

(** [l.filter(f)] for a callback that may throw. *)
Fixpoint cfilter {A} (f : A -> Completion bool) (l : list A) : Completion (list A) :=
  match l with
  | [] => Normal []
  | x :: l' =>
      let! keep := f x in
      let! rest := cfilter f l' in
      Normal (if keep then x :: rest else rest)
  end.

(** [l.reduce(f, init)] for a callback that may throw. *)
Fixpoint reduce {A B} (f : A -> B -> Completion A) (l : list B) (acc : A) : Completion A :=
  match l with
  | [] => Normal acc
  | x :: l' =>
      let! acc' := f acc x in
      reduce f l' acc'
  end.

(** *** Objects built by the program

    An object that starts as [{}] and receives [acc[k] = v] assignments has
    its own properties and a prototype.  The prototype matters for one key:
    [__proto__] is an accessor of [Object.prototype], so assigning to it
    creates no own property; it replaces the prototype when the value is an
    object or [null] and does nothing otherwise.  Once the prototype chain
    no longer reaches that accessor (prototype [null], or an object parsed
    from JSON that has a data property of that name), the assignment is an
    ordinary one.  Every other inherited property is a writable data
    property, which an assignment shadows with an own property. *)
Inductive Proto :=
| ObjectPrototype
| NullPrototype
| ValuePrototype (v : JValue).

Record Obj := {
  own_props : gmap string JValue;
  proto : Proto
}.

Definition empty_object : Obj := {| own_props := ∅; proto := ObjectPrototype |}.

Definition reaches_proto_accessor (o : Obj) : bool :=
  match own_props o !! "__proto__" with
  | Some _ => false
  | None =>
      match proto o with
      | ObjectPrototype => true
      | NullPrototype => false
      | ValuePrototype (JObj fields) =>
          match own fields "__proto__" with
          | Some _ => false
          | None => true
          end
      | ValuePrototype _ => true
      end
  end.

(** [o[k] = v]. *)
Definition set_property (o : Obj) (k : string) (v : JValue) : Obj :=
  if String.eqb k "__proto__" && reaches_proto_accessor o then
    match v with
    | JObj _ | JArr _ => {| own_props := own_props o; proto := ValuePrototype v |}
    | JNull => {| own_props := own_props o; proto := NullPrototype |}
    | _ => o
    end
  else {| own_props := <[k := v]> (own_props o); proto := proto o |}.

End Js.

Import Js.
Local Open Scope js_scope.

(** ** The remote platform and the outbound calls *)

(** Methods of the requests that reach the guard ([OPTIONS] is answered by
    the [cors] middleware in front of it). *)
Inductive Method := GET | HEAD | POST | PUT | PATCH | DELETE.

Definition method_eqb (a b : Method) : bool :=
  match a, b with
  | GET, GET | HEAD, HEAD | POST, POST | PUT, PUT
  | PATCH, PATCH | DELETE, DELETE => true
  | _, _ => false
  end.

(** [deploymentData] of the deploy handler.  [framework], [buildCommand] and
    [env] are properties the handler adds only under a condition; [dd_env]
    holds the own properties of the object that [reduce] builds, which are
    what the JSON encoding of the request transmits. *)
Record GitSource := {
  gs_type : JValue;
  gs_repo : JValue;
  gs_ref : JValue
}.

Record DeploymentData := {
  dd_name : JValue;
  dd_gitSource : GitSource;
  dd_target : string;
  dd_framework : option JValue;
  dd_buildCommand : option JValue;
  dd_env : option (gmap string JValue)
}.

(** Body of one environment-variable write. *)
Record EnvWrite := {
  ew_key : string;
  ew_value : JValue;
  ew_type : string;
  ew_target : list string
}.

Inductive Payload :=
| NoData
| DeployData (d : DeploymentData)
| EnvData (w : EnvWrite)
| DomainData (name : JValue)
| FrameworkData (framework : JValue).

(** One request of the axios client: [baseURL] is fixed, [call_bearer] is
    the token of the [Authorization] header. *)
Record Call := {
  call_bearer : string;
  call_method : Method;
  call_url : string;
  call_data : Payload
}.

(** What the awaited promise settles to: the response body on a 2xx answer,
    or a rejection with [error.message] and [error.response?.data]
    ([undefined] when no response arrived). *)
Inductive Reply :=
| Resolved (data : JValue)
| Rejected (message : string) (response_data : JValue).

(** [process.env] (the three variables the program reads),
    [process.uptime()] and [new Date().toISOString()]. *)
Record Process := {
  MCP_API_KEY : option string;
  VERCEL_TOKEN : option string;
  NODE_ENV : option string;
  uptime : JsNumber;
  now : string
}.

Record Request := {
  req_method : Method;
  req_path : string;
  req_api_key : option string;
  req_body : JValue
}.

Record Response := {
  status : nat;
  body : JValue
}.

(** [res.json(v)] and [res.status(n).json(v)]. *)
Definition json (v : JValue) : Response := {| status := 200; body := v |}.
Definition status_json (n : nat) (v : JValue) : Response := {| status := n; body := v |}.

Module Gateway.

Section Handlers.

(** The remote platform is a state machine answering one call at a time;
    [schedule] resolves the order in which it receives calls that the
    gateway has in flight together. *)
Variable RemoteState : Type.
Variable remote : RemoteState -> Call -> Reply * RemoteState.
Variable schedule : list nat.
Variable proc : Process.

(** *** The handler monad

    A computation starts from a state of the remote platform and yields a
    completion, the calls it issued in order, and the platform's new state. *)
Definition IO (A : Type) : Type :=
  RemoteState -> Completion A * list Call * RemoteState.

Definition ret {A} (a : A) : IO A := fun s => (Normal a, [], s).

Definition bind {A B} (m : IO A) (k : A -> IO B) : IO B :=
  fun s =>
    match m s with
    | (Normal a, t, s1) =>
        match k a s1 with
        | (r, t', s2) => (r, t ++ t', s2)
        end
    | (Throw e, t, s1) => (Throw e, t, s1)
    end.

Definition lift {A} (c : Completion A) : IO A := fun s => (c, [], s).

(** [try { m } catch (error) { h error }]. *)
Definition try_catch {A} (m : IO A) (h : Exn -> IO A) : IO A :=
  fun s =>
    match m s with
    | (Normal a, t, s1) => (Normal a, t, s1)
    | (Throw e, t, s1) =>
        match h e s1 with
        | (r, t', s2) => (r, t ++ t', s2)
        end
    end.

Notation "'let*' x ':=' m 'in' k" := (bind m (fun x => k))
  (at level 10, x name, m at level 100, k at level 200).

(** [await client.request(...)]. *)
Definition settle (r : Reply) : Completion JValue :=
  match r with
  | Resolved data => Normal data
  | Rejected message response_data => Throw (AxiosError message response_data)
  end.

Definition await_call (c : Call) : IO JValue :=
  fun s =>
    match remote s c with
    | (r, s') => (settle r, [c], s')
    end.

(** [getVercelClient]. *)
Definition getVercelClient : Completion string :=
  match VERCEL_TOKEN proc with
  | Some token =>
      if String.eqb token "" then Throw (Error "VERCEL_TOKEN not configured")
      else Normal token
  | None => Throw (Error "VERCEL_TOKEN not configured")
  end.

Definition request (client : string) (m : Method) (url : string) (data : Payload) : IO JValue :=
  await_call {| call_bearer := client; call_method := m; call_url := url; call_data := data |}.

(** [error.message]. *)
Definition message_of (e : Exn) : string :=
  match e with
  | TypeError m | Error m | AxiosError m _ => m
  end.

(** [error.response?.data?.error?.message || error.message]. *)
Definition details_of (e : Exn) : JValue :=
  match e with
  | AxiosError m d => or_else (get_opt (get_opt d "error") "message") (JStr m)
  | TypeError m | Error m => JStr m
  end.

(** The catch block shared by the nine API handlers answers with the error
    envelope. *)
Definition envelope (summary : string) (e : Exn) : Response :=
  status_json 500 (JObj [("error", JStr summary); ("details", details_of e)]).

Definition fail (summary : string) (e : Exn) : IO Response :=
  ret (envelope summary e).

Definition bad_request (msg : string) : Response :=
  status_json 400 (JObj [("error", JStr msg)]).

(** *** [GET /health] *)

(** The body of the [try] after the awaited call: [response.data.user.username]
    is read while the answer is built. *)
Definition healthy (data : JValue) : Completion Response :=
  let! user := get data "user" in
  let! username := get user "username" in
  Normal (json (JObj [("status", JStr "healthy");
                      ("uptime", JNum (uptime proc));
                      ("timestamp", JStr (now proc));
                      ("vercel", JObj [("connected", JBool true);
                                       ("user", username)])])).

Definition unhealthy (error : Exn) : Response :=
  status_json 503
    (JObj [("status", JStr "unhealthy");
           ("uptime", JNum (uptime proc));
           ("timestamp", JStr (now proc));
           ("vercel", JObj [("connected", JBool false);
                            ("error", JStr (message_of error))])]).

Definition health : IO Response :=
  try_catch
    (let* client := lift getVercelClient in
     let* data := request client GET "/v2/user" NoData in
     lift (healthy data))
    (fun error => ret (unhealthy error)).

(** *** [POST /api/deploy] *)

(** The callback of [envVariables.reduce]: [acc[env.key] = env.value]. *)
Definition env_step (acc : Obj) (env : JValue) : Completion Obj :=
  let! key := get env "key" in
  let! value := get env "value" in
  let! k := to_string key in
  Normal (set_property acc k value).

Definition deploymentData (name gitSource framework buildCommand envVariables : JValue)
  : Completion DeploymentData :=
  let! type := get gitSource "type" in
  let! repo := get gitSource "repo" in
  let! ref := get gitSource "ref" in
  let! env :=
    match envVariables with
    | JArr items =>
        let! acc := reduce env_step items empty_object in
        Normal (Some (own_props acc))
    | _ => Normal None
    end in
  Normal {| dd_name := name;
            dd_gitSource := {| gs_type := or_else type (JStr "github");
                               gs_repo := repo;
                               gs_ref := or_else ref (JStr "main") |};
            dd_target := "preview";
            dd_framework := if truthy framework then Some framework else None;
            dd_buildCommand := if truthy buildCommand then Some buildCommand else None;
            dd_env := env |}.

(** [`https://${host}`]. *)
Definition with_scheme (host : string) : string := "https://" +:+ host.

(** The answer built from [response.data]. *)
Definition deployed (data : JValue) : Completion Response :=
  let! id := get data "id" in
  let! url := get data "url" in
  let! host := to_string url in
  let! readyState := get data "readyState" in
  let! inspectorUrl := get data "inspectorUrl" in
  Normal (json (JObj [("success", JBool true);
                      ("deployment",
                       JObj [("id", id);
                             ("url", JStr (with_scheme host));
                             ("status", readyState);
                             ("inspectorUrl", inspectorUrl)])])).

(** [!gitSource || !gitSource.repo]. *)
Definition no_git_source (gitSource : JValue) : Completion bool :=
  if negb (truthy gitSource) then Normal true
  else let! repo := get gitSource "repo" in Normal (negb (truthy repo)).

Definition deploy (req : Request) : IO Response :=
  try_catch
    (let* b := lift (destructure "name" "req.body" (req_body req)) in
     let* name := lift (get b "name") in
     let* gitSource := lift (get b "gitSource") in
     let* envVariables := lift (get b "envVariables") in
     let* buildCommand := lift (get b "buildCommand") in
     let* framework := lift (get b "framework") in
     if negb (truthy name) then ret (bad_request "Project name is required")
     else
       let* missing := lift (no_git_source gitSource) in
       if (missing : bool) then ret (bad_request "Git source is required")
       else
         let* client := lift getVercelClient in
         let* payload :=
           lift (deploymentData name gitSource framework buildCommand envVariables) in
         let* data := request client POST "/v13/deployments" (DeployData payload) in
         lift (deployed data))
    (fail "Failed to trigger deployment").

(** *** [GET /api/deploy/:id/status] *)
Definition status_of (deployment : JValue) : Completion Response :=
  let! d_id := get deployment "id" in
  let! url := get deployment "url" in
  let! host := to_string url in
  let! readyState := get deployment "readyState" in
  let! state := get deployment "state" in
  let! ready := get deployment "ready" in
  let! createdAt := get deployment "createdAt" in
  let! buildingAt := get deployment "buildingAt" in
  let! readyAt := get deployment "readyAt" in
  let! creator := get deployment "creator" in
  let! meta := get deployment "meta" in
  Normal (json (JObj [("success", JBool true);
                      ("deployment",
                       JObj [("id", d_id);
                             ("url", JStr (with_scheme host));
                             ("status", readyState);
                             ("state", state);
                             ("ready", ready);
                             ("createdAt", createdAt);
                             ("buildingAt", buildingAt);
                             ("readyAt", readyAt);
                             ("creator", get_opt creator "username");
                             ("meta",
                              JObj [("githubCommitRef", get_opt meta "githubCommitRef");
                                    ("githubCommitMessage", get_opt meta "githubCommitMessage");
                                    ("githubCommitAuthorName",
                                     get_opt meta "githubCommitAuthorName")])])])).

Definition deploy_status (id : string) : IO Response :=
  try_catch
    (let* client := lift getVercelClient in
     let* deployment := request client GET ("/v13/deployments/" +:+ id) NoData in
     lift (status_of deployment))
    (fail "Failed to get deployment status").

(** *** [GET /api/deploy/:id/logs] *)
Definition log_entry (event : JValue) : Completion JValue :=
  let! created := get event "created" in
  let! type := get event "type" in
  let! payload := get event "payload" in
  Normal (JObj [("timestamp", created); ("type", type); ("payload", payload)]).

Definition logs_of (data : JValue) : Completion Response :=
  let! events := array_of "response.data" "map" data in
  let! logs := cmap log_entry events in
  Normal (json (JObj [("success", JBool true); ("logs", JArr logs)])).

Definition deploy_logs (id : string) : IO Response :=
  try_catch
    (let* client := lift getVercelClient in
     let* data := request client GET ("/v2/deployments/" +:+ id +:+ "/events") NoData in
     lift (logs_of data))
    (fail "Failed to get deployment logs").

(** *** [POST /api/deploy/:id/promote] *)
Definition promote (id : string) : IO Response :=
  try_catch
    (let* client := lift getVercelClient in
     let* deployment := request client GET ("/v13/deployments/" +:+ id) NoData in
     let* projectId := lift (get deployment "projectId") in
     let* project := lift (to_string projectId) in
     let* framework := lift (get deployment "framework") in
     let* _ := request client PATCH ("/v9/projects/" +:+ project) (FrameworkData framework) in
     ret (json (JObj [("success", JBool true);
                      ("message", JStr "Deployment promoted to production");
                      ("deploymentId", JStr id)])))
    (fail "Failed to promote deployment").

(** *** [DELETE /api/deploy/:id] *)
Definition cancel (id : string) : IO Response :=
  try_catch
    (let* client := lift getVercelClient in
     let* _ := request client PATCH ("/v12/deployments/" +:+ id +:+ "/cancel") NoData in
     ret (json (JObj [("success", JBool true);
                      ("message", JStr "Deployment cancelled");
                      ("deploymentId", JStr id)])))
    (fail "Failed to cancel deployment").

(** *** [GET /api/projects] *)
Definition latest_deployment (d : JValue) : Completion JValue :=
  let! d_id := get d "id" in
  let! url := get d "url" in
  let! host := to_string url in
  let! ready := get d "ready" in
  let! createdAt := get d "createdAt" in
  Normal (JObj [("id", d_id); ("url", JStr (with_scheme host));
                ("ready", ready); ("createdAt", createdAt)]).

Definition project_entry (project : JValue) : Completion JValue :=
  let! p_id := get project "id" in
  let! name := get project "name" in
  let! framework := get project "framework" in
  let! createdAt := get project "createdAt" in
  let! updatedAt := get project "updatedAt" in
  let! link := get project "link" in
  let! latest := get project "latestDeployments" in
  let! latestDeployments :=
    (if nullish latest then Normal JUndefined
     else let! ds := array_of "project.latestDeployments?" "map" latest in
          let! out := cmap latest_deployment ds in
          Normal (JArr out)) in
  Normal (JObj [("id", p_id); ("name", name); ("framework", framework);
                ("createdAt", createdAt); ("updatedAt", updatedAt); ("link", link);
                ("latestDeployments", latestDeployments)]).

Definition projects_of (data : JValue) : Completion Response :=
  let! listed := get data "projects" in
  let! items := array_of "response.data.projects" "map" listed in
  let! projects := cmap project_entry items in
  Normal (json (JObj [("success", JBool true); ("projects", JArr projects)])).

Definition list_projects : IO Response :=
  try_catch
    (let* client := lift getVercelClient in
     let* data := request client GET "/v9/projects" NoData in
     lift (projects_of data))
    (fail "Failed to list projects").

(** *** [POST /api/env] *)

Definition env_write (client project key : string) (value : JValue) : Call :=
  {| call_bearer := client;
     call_method := POST;
     call_url := "/v9/projects/" +:+ project +:+ "/env";
     call_data := EnvData {| ew_key := key; ew_value := value;
                             ew_type := "encrypted";
                             ew_target := ["production"; "preview"] |} |}.

(** [Object.entries(env).map(([key, value]) => client.post(...))]: every
    callback evaluates the template of the URL and hands one request to the
    client.  The result is the requests put in flight, and the exception
    that stopped the traversal if the template threw. *)
Fixpoint dispatch_writes (client : string) (projectId : JValue)
    (es : list (string * JValue)) : list Call * option Exn :=
  match es with
  | [] => ([], None)
  | (key, value) :: rest =>
      match to_string projectId with
      | Throw e => ([], Some e)
      | Normal project =>
          match dispatch_writes client projectId rest with
          | (cs, thrown) => (env_write client project key value :: cs, thrown)
          end
      end
  end.

(** The platform receives the requests in flight in an order of its own:
    every request is inserted at the position the schedule picks. *)
Definition insert_at {A} (k : nat) (x : A) (l : list A) : list A :=
  take k l ++ x :: drop k l.

Fixpoint arrival {A} (choices : list nat) (xs : list A) : list A :=
  match xs with
  | [] => []
  | x :: xs' =>
      insert_at (hd 0 choices `mod` S (length xs')) x (arrival (tl choices) xs')
  end.

Fixpoint serve (cs : list Call) (s : RemoteState) : list Reply * RemoteState :=
  match cs with
  | [] => ([], s)
  | c :: cs' =>
      match remote s c with
      | (r, s1) =>
          match serve cs' s1 with
          | (rs, s2) => (r :: rs, s2)
          end
      end
  end.

Fixpoint first_rejection (rs : list Reply) : option Exn :=
  match rs with
  | [] => None
  | Resolved _ :: rs' => first_rejection rs'
  | Rejected message response_data :: _ => Some (AxiosError message response_data)
  end.

(** [await Promise.all(promises)]: the requests are served in arrival order
    and settle in that order; the first rejection rejects the whole. *)
Definition promise_all (dispatched : list Call * option Exn) : IO unit :=
  fun s =>
    match dispatched with
    | (cs, thrown) =>
        match serve (arrival schedule cs) s with
        | (replies, s') =>
            (match thrown with
             | Some e => Throw e
             | None =>
                 match first_rejection replies with
                 | Some e => Throw e
                 | None => Normal tt
                 end
             end, cs, s')
        end
    end.

Definition set_env (req : Request) : IO Response :=
  try_catch
    (let* b := lift (destructure "projectId" "req.body" (req_body req)) in
     let* projectId := lift (get b "projectId") in
     let* env := lift (get b "env") in
     if negb (truthy projectId) || negb (truthy env)
     then ret (bad_request "Project ID and environment variables are required")
     else
       let* client := lift getVercelClient in
       let* _ := promise_all (dispatch_writes client projectId (entries env)) in
       ret (json (JObj [("success", JBool true);
                        ("message", JStr "Environment variables set successfully")])))
    (fail "Failed to set environment variables").

(** *** [POST /api/projects/:id/domain] *)
Definition add_domain (id : string) (req : Request) : IO Response :=
  try_catch
    (let* b := lift (destructure "domain" "req.body" (req_body req)) in
     let* domain := lift (get b "domain") in
     if negb (truthy domain) then ret (bad_request "Domain is required")
     else
       let* client := lift getVercelClient in
       let* _ := request client POST ("/v9/projects/" +:+ id +:+ "/domains")
                   (DomainData domain) in
       ret (json (JObj [("success", JBool true);
                        ("message", JStr "Domain added successfully");
                        ("domain", domain)])))
    (fail "Failed to add domain").

(** *** [GET /api/deploy/:id/errors] *)

(** The predicate of [filter]:
    [event.type === 'stderr' ||
     (event.payload?.text && event.payload.text.toLowerCase().includes('error'))]. *)
Definition is_error_event (event : JValue) : Completion bool :=
  let! type := get event "type" in
  if is_string "stderr" type then Normal true
  else
    let! payload := get event "payload" in
    let text := get_opt payload "text" in
    if truthy text then
      match text with
      | JStr s => Normal (includes (toLowerCase s) "error")
      | _ => Throw (TypeError "event.payload.text.toLowerCase is not a function")
      end
    else Normal false.

(** The callback of [map]:
    [{ timestamp: event.created,
       message: event.payload?.text || event.payload?.message || 'Unknown error' }]. *)
Definition error_entry (event : JValue) : Completion JValue :=
  let! created := get event "created" in
  let! payload := get event "payload" in
  Normal (JObj [("timestamp", created);
                ("message", or_else (or_else (get_opt payload "text")
                                             (get_opt payload "message"))
                                    (JStr "Unknown error"))]).

Definition errors_of (data : JValue) : Completion Response :=
  let! events := array_of "response.data" "filter" data in
  let! kept := cfilter is_error_event events in
  let! errors := cmap error_entry kept in
  Normal (json (JObj [("success", JBool true);
                      ("errors", JArr errors);
                      ("hasErrors", JBool (0 <? length errors)%nat)])).

Definition deploy_errors (id : string) : IO Response :=
  try_catch
    (let* client := lift getVercelClient in
     let* data := request client GET ("/v2/deployments/" +:+ id +:+ "/events") NoData in
     lift (errors_of data))
    (fail "Failed to parse build errors").

(** *** Routing

    Express goes through the routes in order.  It first matches the path,
    segment by segment: literal segments without regard to case, [:id]
    against one non-empty segment, and one trailing slash allowed.  The
    segment captured for [:id] is then decoded with [decodeURIComponent];
    when that throws, the error is kept, the routes that follow are passed
    over, and the error-handling middleware registered after them answers.
    Only then comes the method: a route whose method is not the request's
    is passed over ([HEAD] runs a [GET] route). *)
Inductive Segment :=
| Lit (s : string)
| Param.

Fixpoint split_path (s : string) : list string :=
  match s with
  | EmptyString => [""]
  | String c s' =>
      if Ascii.eqb c "/" then "" :: split_path s'
      else match split_path s' with
           | seg :: rest => String c seg :: rest
           | [] => [String c ""]
           end
  end.

Fixpoint match_segments (pat : list Segment) (segs : list string) : option string :=
  match pat, segs with
  | [], [] => Some ""
  | [], [last] => if String.eqb last "" then Some "" else None
  | Lit l :: pat', seg :: segs' =>
      if String.eqb (toLowerCase seg) (toLowerCase l) then match_segments pat' segs'
      else None
  | Param :: pat', seg :: segs' =>
      if String.eqb seg "" then None
      else match match_segments pat' segs' with
           | Some _ => Some seg
           | None => None
           end
  | _, _ => None
  end.

(** [decode_param] of the router: the error of a failed decoding gets the
    router's own message. *)
Definition decode_param (val : string) : Completion string :=
  if String.eqb val "" then Normal val
  else match decodeURIComponent val with
       | Some id => Normal id
       | None => Throw (Error ("Failed to decode param '" +:+ val +:+ "'"))
       end.

Definition match_route (pat : list Segment) (path : string)
  : option (Completion string) :=
  match split_path path with
  | first :: segs =>
      if String.eqb first "" then
        match match_segments pat segs with
        | Some val => Some (decode_param val)
        | None => None
        end
      else None
  | [] => None
  end.

Definition method_matches (route_method m : Method) : bool :=
  method_eqb route_method m || (method_eqb route_method GET && method_eqb m HEAD).

Definition Handler : Type := string -> Request -> IO Response.

(** The routes, in the order the source registers them. *)
Definition routes : list (Method * list Segment * Handler) :=
  [ (GET, [Lit "health"], fun _ _ => health);
    (POST, [Lit "api"; Lit "deploy"], fun _ req => deploy req);
    (GET, [Lit "api"; Lit "deploy"; Param; Lit "status"], fun id _ => deploy_status id);
    (GET, [Lit "api"; Lit "deploy"; Param; Lit "logs"], fun id _ => deploy_logs id);
    (POST, [Lit "api"; Lit "deploy"; Param; Lit "promote"], fun id _ => promote id);
    (DELETE, [Lit "api"; Lit "deploy"; Param], fun id _ => cancel id);
    (GET, [Lit "api"; Lit "projects"], fun _ _ => list_projects);
    (POST, [Lit "api"; Lit "env"], fun _ req => set_env req);
    (POST, [Lit "api"; Lit "projects"; Param; Lit "domain"], add_domain);
    (GET, [Lit "api"; Lit "deploy"; Param; Lit "errors"], fun id _ => deploy_errors id) ].

Definition not_found : IO Response :=
  ret (status_json 404 (JObj [("error", JStr "Endpoint not found")])).

(** The error-handling middleware: the message of the error is disclosed
    in development only. *)
Definition is_development (env : option string) : bool :=
  match env with
  | Some mode => String.eqb mode "development"
  | None => false
  end.

Definition error_middleware (error : Exn) : IO Response :=
  ret (status_json 500
         (JObj [("error", JStr "Internal server error");
                ("message", if is_development (NODE_ENV proc)
                            then JStr (message_of error) else JUndefined)])).

Fixpoint dispatch (table : list (Method * list Segment * Handler)) (req : Request)
  : IO Response :=
  match table with
  | [] => not_found
  | (m, pat, handler) :: rest =>
      match match_route pat (req_path req) with
      | Some (Throw error) => error_middleware error
      | Some (Normal id) =>
          if method_matches m (req_method req) then handler id req
          else dispatch rest req
      | None => dispatch rest req
      end
  end.

(** *** The authentication guard *)

Definition unauthorized : Response :=
  status_json 401 (JObj [("error", JStr "Unauthorized")]).

(** [!apiKey]: the header is absent or empty. *)
Definition no_key (apiKey : option string) : bool :=
  match apiKey with
  | None => true
  | Some k => String.eqb k ""
  end.

(** [apiKey !== process.env.MCP_API_KEY]. *)
Definition differs (apiKey secret : option string) : bool :=
  match apiKey, secret with
  | Some k, Some s => negb (String.eqb k s)
  | None, None => false
  | _, _ => true
  end.

Definition authenticateAPI (req : Request) (next : IO Response) : IO Response :=
  let apiKey := req_api_key req in
  if no_key apiKey || differs apiKey (MCP_API_KEY proc) then ret unauthorized
  else next.

(** The middleware in front of the routes: every path but [/health] goes
    through the guard. *)
Definition app (req : Request) : IO Response :=
  if String.eqb (req_path req) "/health" then dispatch routes req
  else authenticateAPI req (dispatch routes req).

End Handlers.

Arguments IO RemoteState A : clear implicits.

End Gateway.

(** ** Vocabulary of the statements *)

Import Gateway.

(** The call that triggers a deployment. *)
Definition deploy_call (client : string) (d : DeploymentData) : Call :=
  {| call_bearer := client; call_method := POST;
     call_url := "/v13/deployments"; call_data := DeployData d |}.

(** [env.key] converted to a property key. *)
Definition key_of (env : JValue) : Completion string :=
  let! key := get env "key" in to_string key.

(** Number of scheme separators in a URL: a bare host has none, a URL with
    one scheme prefix has one. *)
Fixpoint scheme_count (s : string) : nat :=
  match s with
  | EmptyString => 0
  | String _ s' => (if String.prefix "://" s then 1 else 0) + scheme_count s'
  end.

(** The [url] of the deployment in an answer. *)
Definition deployment_url (r : Response) : JValue :=
  get_opt (get_opt (body r) "deployment") "url".

(** Case-insensitive containment, as the specification words it. *)
Definition same_ignoring_case (a b : string) : Prop :=
  toLowerCase a = toLowerCase b.

Definition contains_ignoring_case (s pat : string) : Prop :=
  exists pre mid post, s = pre +:+ mid +:+ post /\ same_ignoring_case mid pat.

Definition event_text (event : JValue) : JValue :=
  get_opt (get_opt event "payload") "text".

Definition event_message (event : JValue) : JValue :=
  get_opt (get_opt event "payload") "message".

(** An event of the platform's stream: an object whose [payload.text], when
    there is one, is a string (or [null]). *)
Definition is_event (v : JValue) : bool :=
  match v with
  | JObj _ =>
      match event_text v with
      | JUndefined | JNull | JStr _ => true
      | _ => false
      end
  | _ => false
  end.

(** The events the errors handler is specified to keep. *)
Definition reports_error (event : JValue) : Prop :=
  get_opt event "type" = JStr "stderr" \/
  exists s, event_text event = JStr s /\ contains_ignoring_case s "error".

(** The message of a kept event in the specification's words: [payload.text]
    if present, else [payload.message] if present, else the literal. *)
Definition present (payload : JValue) (k : string) : option JValue :=
  match payload with
  | JObj fields => own fields k
  | _ => None
  end.

Definition claimed_message (event : JValue) : JValue :=
  match present (get_opt event "payload") "text" with
  | Some text => text
  | None =>
      match present (get_opt event "payload") "message" with
      | Some message => message
      | None => JStr "Unknown error"
      end
  end.

(** The message the code computes, case by case: a non-empty [payload.text],
    else a truthy [payload.message], else the literal. *)
Definition fallback_message (event : JValue) : JValue :=
  if truthy (event_message event) then event_message event else JStr "Unknown error".

Definition reported_message (event : JValue) : JValue :=
  match event_text event with
  | JStr s => if String.eqb s "" then fallback_message event else JStr s
  | _ => fallback_message event
  end.

Definition reported (event : JValue) : JValue :=
  JObj [("timestamp", get_opt event "created"); ("message", reported_message event)].

(** A value of the [:id] parameter: one non-empty path segment. *)
Definition is_segment (id : string) : bool :=
  negb (String.eqb id "") && negb (includes id "/").

(** [selects P l kept]: [kept] is [l] restricted to the elements that
    satisfy [P], in the order and with the multiplicity they have in [l]. *)
Inductive selects {A} (P : A -> Prop) : list A -> list A -> Prop :=
| selects_nil : selects P [] []
| selects_keep x l kept : P x -> selects P l kept -> selects P (x :: l) (x :: kept)
| selects_skip x l kept : ~ P x -> selects P l kept -> selects P (x :: l) kept.

(** The call behind the logs and the errors of a deployment. *)
Definition events_call (client id : string) : Call :=
  {| call_bearer := client; call_method := GET;
     call_url := "/v2/deployments/" +:+ id +:+ "/events"; call_data := NoData |}.

(** The call of the liveness probe. *)
Definition identity_call (client : string) : Call :=
  {| call_bearer := client; call_method := GET;
     call_url := "/v2/user"; call_data := NoData |}.

(** The two answers of the liveness probe. *)
Definition healthy_answer (proc : Process) (user : JValue) : Response :=
  {| status := 200;
     body := JObj [("status", JStr "healthy");
                   ("uptime", JNum (uptime proc));
                   ("timestamp", JStr (now proc));
                   ("vercel", JObj [("connected", JBool true); ("user", user)])] |}.


(** The answer of the environment-variable handler when all writes went
    through. *)
Definition env_set : Response :=
  json (JObj [("success", JBool true);
              ("message", JStr "Environment variables set successfully")]).

(** The writes of one environment-variable request, one per entry. *)
Definition env_writes (client project : string) (env : JValue) : list Call :=
  map (fun kv => env_write client project kv.1 kv.2) (entries env).

(** *** The other handlers *)

(** A call carries the configured token, which is not empty. *)
Definition token_of (proc : Process) (c : Call) : Prop :=
  VERCEL_TOKEN proc = Some (call_bearer c) /\ call_bearer c <> "".

(** What every answer of the application looks like: it is returned, not
    thrown; its status is one of six; an answer in the 4xx range comes with
    no outbound call and leaves the platform as it was; every call made
    carries the token. *)
Definition profile {RemoteState} (proc : Process)
    (m : Gateway.IO RemoteState Response) : Prop :=
  forall s, exists r calls s',
    m s = (Normal r, calls, s') /\
    (status r = 200 \/ status r = 500 \/ status r = 503 \/
     ((status r = 400 \/ status r = 401 \/ status r = 404) /\ calls = [] /\ s' = s)) /\
    (forall c, c ∈ calls -> token_of proc c).

Definition deployment_call (client id : string) : Call :=
  {| call_bearer := client; call_method := GET;
     call_url := "/v13/deployments/" +:+ id; call_data := NoData |}.

Definition project_patch (client project : string) (framework : JValue) : Call :=
  {| call_bearer := client; call_method := PATCH;
     call_url := "/v9/projects/" +:+ project; call_data := FrameworkData framework |}.

Definition cancel_call (client id : string) : Call :=
  {| call_bearer := client; call_method := PATCH;
     call_url := "/v12/deployments/" +:+ id +:+ "/cancel"; call_data := NoData |}.

Definition domain_call (client id : string) (domain : JValue) : Call :=
  {| call_bearer := client; call_method := POST;
     call_url := "/v9/projects/" +:+ id +:+ "/domains"; call_data := DomainData domain |}.

Definition projects_call (client : string) : Call :=
  {| call_bearer := client; call_method := GET;
     call_url := "/v9/projects"; call_data := NoData |}.

(** What promote reads off the deployment before it patches: the path of
    the project and the framework to carry over. *)
Definition patch_target (deployment : JValue) : Completion (string * JValue) :=
  let! projectId := get deployment "projectId" in
  let! project := to_string projectId in
  let! framework := get deployment "framework" in
  Normal (project, framework).

(** The success answers of promote, cancel and domain. *)
Definition promoted (id : string) : Response :=
  json (JObj [("success", JBool true);
              ("message", JStr "Deployment promoted to production");
              ("deploymentId", JStr id)]).

Definition cancelled (id : string) : Response :=
  json (JObj [("success", JBool true);
              ("message", JStr "Deployment cancelled");
              ("deploymentId", JStr id)]).

Definition domain_added (domain : JValue) : Response :=
  json (JObj [("success", JBool true);
              ("message", JStr "Domain added successfully");
              ("domain", domain)]).

(** The log line of an event. *)
Definition logged (event : JValue) : JValue :=
  JObj [("timestamp", get_opt event "created");
        ("type", get_opt event "type");
        ("payload", get_opt event "payload")].

Definition defined (v : JValue) : bool := negb (nullish v).

(** A project of the platform's listing: [latestDeployments], when there
    is one, is an array of deployments whose [url] is a string. *)
Definition is_listed_deployment (d : JValue) : bool :=
  defined d &&
  match get_opt d "url" with
  | JStr _ => true
  | _ => false
  end.

Definition is_project (p : JValue) : bool :=
  defined p &&
  match get_opt p "latestDeployments" with
  | JUndefined | JNull => true
  | JArr ds => forallb is_listed_deployment ds
  | _ => false
  end.

Definition listed_deployment (d : JValue) : JValue :=
  JObj [("id", get_opt d "id");
        ("url", match get_opt d "url" with
                | JStr host => JStr (with_scheme host)
                | _ => JUndefined
                end);
        ("ready", get_opt d "ready");
        ("createdAt", get_opt d "createdAt")].

Definition listed_project (p : JValue) : JValue :=
  JObj [("id", get_opt p "id"); ("name", get_opt p "name");
        ("framework", get_opt p "framework");
        ("createdAt", get_opt p "createdAt"); ("updatedAt", get_opt p "updatedAt");
        ("link", get_opt p "link");
        ("latestDeployments",
         match get_opt p "latestDeployments" with
         | JArr ds => JArr (map listed_deployment ds)
         | _ => JUndefined
         end)].

(** An entry of [envVariables] as the README shows it: an object whose
    [key] is a string. *)
Definition is_env_entry (e : JValue) : bool :=
  match e with
  | JObj _ =>
      match get_opt e "key" with
      | JStr _ => true
      | _ => false
      end
  | _ => false
  end.

(** ** A scripted platform

    For running the gateway on concrete requests: the platform answers the
    calls it receives with the replies of a script, in order, and refuses
    the connection once the script is exhausted. *)
Module Scripted.

Definition remote (script : list Reply) (c : Call) : Reply * list Reply :=
  match script with
  | r :: rest => (r, rest)
  | [] => (Rejected "connect ECONNREFUSED" JUndefined, [])
  end.

Definition proc : Process :=
  {| MCP_API_KEY := Some "s3cret";
     VERCEL_TOKEN := Some "tok";
     NODE_ENV := Some "production";
     uptime := {| num_truthy := true; num_text := "12.5" |};
     now := "2024-01-01T00:00:00.000Z" |}.

Definition run (req : Request) (script : list Reply)
  : Completion Response * list Call * list Reply :=
  Gateway.app (list Reply) remote [] proc req script.

Definition request (m : Method) (path : string) (body : JValue) : Request :=
  {| req_method := m; req_path := path; req_api_key := Some "s3cret"; req_body := body |}.

Definition number (text : string) : JValue :=
  JNum {| num_truthy := true; num_text := text |}.

(** The deploy request of the specification's example, with a [target] the
    handler is to ignore. *)
Definition deploy_request : Request :=
  request POST "/api/deploy"
    (JObj [("name", JStr "app");
           ("gitSource", JObj [("repo", JStr "org/repo")]);
           ("target", JStr "production")]).

Definition deploy_payload : DeploymentData :=
  {| dd_name := JStr "app";
     dd_gitSource := {| gs_type := JStr "github";
                        gs_repo := JStr "org/repo";
                        gs_ref := JStr "main" |};
     dd_target := "preview";
     dd_framework := None;
     dd_buildCommand := None;
     dd_env := None |}.

(** A deploy request with two environment variables named [__proto__]. *)
Definition proto_request : Request :=
  request POST "/api/deploy"
    (JObj [("name", JStr "app");
           ("gitSource", JObj [("repo", JStr "org/repo")]);
           ("envVariables",
            JArr [JObj [("key", JStr "__proto__"); ("value", JStr "first")];
                  JObj [("key", JStr "__proto__"); ("value", JStr "second")]])]).

Definition deployment_created : Reply :=
  Resolved (JObj [("id", JStr "dpl_1"); ("url", JStr "app.vercel.app");
                  ("readyState", JStr "QUEUED")]).

(** The event stream of the specification's example. *)
Definition sample_events : list JValue :=
  [JObj [("type", JStr "stdout"); ("created", number "1700000000000");
         ("payload", JObj [("text", JStr "ok")])];
   JObj [("type", JStr "stderr"); ("created", number "1700000000001");
         ("payload", JObj [("text", JStr "boom")])]].

(** A blank line on the error stream, with a message beside it. *)
Definition blank_stderr_line : JValue :=
  JObj [("type", JStr "stderr"); ("created", number "1700000000002");
        ("payload", JObj [("text", JStr ""); ("message", JStr "exit 1")])].

(** An environment-variable request with two entries, and a platform that
    accepts the first write it receives and refuses the second. *)
Definition env_entries : JValue :=
  JObj [("API_KEY", JStr "k"); ("DATABASE_URL", JStr "postgres://db")].

Definition env_request : Request :=
  request POST "/api/env" (JObj [("projectId", JStr "prj_1"); ("env", env_entries)]).

Definition second_write_fails : list Reply :=
  [Resolved (JObj [("key", JStr "API_KEY")]);
   Rejected "Request failed with status code 400"
            (JObj [("error", JObj [("message", JStr "Invalid value")])])].

Definition empty_env_request : Request :=
  request POST "/api/env" (JObj [("projectId", JStr "prj_1"); ("env", JObj [])]).

(** A process whose secret is the empty string, and one without a token. *)
Definition locked_proc : Process :=
  {| MCP_API_KEY := Some "";
     VERCEL_TOKEN := Some "tok";
     NODE_ENV := Some "production";
     uptime := {| num_truthy := true; num_text := "12.5" |};
     now := "2024-01-01T00:00:00.000Z" |}.

Definition no_token_proc : Process :=
  {| MCP_API_KEY := Some "s3cret";
     VERCEL_TOKEN := None;
     NODE_ENV := Some "production";
     uptime := {| num_truthy := true; num_text := "12.5" |};
     now := "2024-01-01T00:00:00.000Z" |}.

(** A deployment as the platform describes it, without creator or commit
    metadata. *)
Definition deployment_found : JValue :=
  JObj [("id", JStr "dpl_1"); ("url", JStr "app.vercel.app");
        ("readyState", JStr "READY"); ("projectId", JStr "prj_1");
        ("framework", JStr "nextjs")].

(** A listing of two projects, the first without deployments. *)
Definition project_listing : list JValue :=
  [JObj [("id", JStr "prj_1"); ("name", JStr "site")];
   JObj [("id", JStr "prj_2"); ("name", JStr "docs");
         ("latestDeployments",
          JArr [JObj [("id", JStr "dpl_2"); ("url", JStr "docs.vercel.app");
                      ("ready", JBool true)]])]].

(** Three environment variables, the first and the last with one name. *)
Definition env_variables : list JValue :=
  [JObj [("key", JStr "API_KEY"); ("value", JStr "old")];
   JObj [("key", JStr "REGION"); ("value", JStr "iad1")];
   JObj [("key", JStr "API_KEY"); ("value", JStr "new")]].

(** A deploy request whose [envVariables] hold a [null]. *)
Definition null_entry_request : Request :=
  request POST "/api/deploy"
    (JObj [("name", JStr "app");
           ("gitSource", JObj [("repo", JStr "org/repo")]);
           ("envVariables",
            JArr [JObj [("key", JStr "API_KEY"); ("value", JStr "k")]; JNull])]).

Definition domain_request : Request :=
  request POST "/api/projects/prj_1/domain" (JObj [("domain", JStr "example.com")]).

Definition scalar_env_request : Request :=
  request POST "/api/env" (JObj [("projectId", JStr "prj_1"); ("env", JBool true)]).

Definition not_found_reply : Reply :=
  Rejected "Request failed with status code 404"
           (JObj [("error", JObj [("code", JStr "not_found");
                                  ("message", JStr "Deployment not found")])]).

End Scripted.

(** ** Properties *)

Section Properties.

Variable RemoteState : Type.
Variable remote : RemoteState -> Call -> Reply * RemoteState.
Variable schedule : list nat.
Variable proc : Process.

Abbreviation IO := (Gateway.IO RemoteState).
Abbreviation app := (Gateway.app RemoteState remote schedule proc).
Abbreviation dispatch := (Gateway.dispatch RemoteState proc).
Abbreviation routes := (Gateway.routes RemoteState remote schedule proc).
Abbreviation authenticateAPI := (Gateway.authenticateAPI RemoteState proc).
Abbreviation health := (Gateway.health RemoteState remote proc).
Abbreviation deploy := (Gateway.deploy RemoteState remote proc).
Abbreviation deploy_status := (Gateway.deploy_status RemoteState remote proc).
Abbreviation deploy_errors := (Gateway.deploy_errors RemoteState remote proc).
Abbreviation set_env := (Gateway.set_env RemoteState remote schedule proc).
Abbreviation getVercelClient := (Gateway.getVercelClient proc).
Abbreviation serve := (Gateway.serve RemoteState remote).
Abbreviation request := (Gateway.request RemoteState remote).

(** *** Reading properties *)

Lemma get_defined (v : JValue) (k : string) :
  nullish v = false -> get v k = Normal (get_opt v k).
Proof. destruct v; simpl; congruence. Qed.

Lemma truthy_defined (v : JValue) : truthy v = true -> nullish v = false.
Proof. destruct v; simpl; congruence. Qed.

Lemma destructure_defined (first source : string) (v : JValue) :
  nullish v = false -> destructure first source v = Normal v.
Proof. intros H. unfold destructure. rewrite H. reflexivity. Qed.

(** *** The guard *)

Lemma guard_rejects (req : Request) (next : IO Response) (s : RemoteState) :
  no_key (req_api_key req) || differs (req_api_key req) (MCP_API_KEY proc) = true ->
  authenticateAPI req next s = (Normal unauthorized, [], s).
Proof.
  intros Hbad. unfold Gateway.authenticateAPI. rewrite Hbad. reflexivity.
Qed.

Lemma guarded_path (req : Request) :
  req_path req <> "/health" ->
  app req = authenticateAPI req (dispatch routes req).
Proof.
  intros Hpath. unfold Gateway.app.
  destruct (String.eqb_spec (req_path req) "/health") as [Heq | _]; [contradiction | reflexivity].
Qed.

Lemma differs_unless_equal (apiKey secret : option string) :
  differs apiKey secret = false -> apiKey = secret.
Proof.
  destruct apiKey as [k |], secret as [x |]; simpl; try discriminate; [| reflexivity].
  destruct (String.eqb_spec k x); [congruence | discriminate].
Qed.

(** C1. A request whose path is not literally [/health] and whose
    [x-api-key] header does not equal the configured secret is answered
    [401 {error: 'Unauthorized'}]; the gateway issues no outbound call and
    leaves the platform untouched.  The exemption holds for the literal
    path only: a request to [/health] goes to the routes whatever its
    header, while every other path, [/health] prefixed or extended as it
    may be, falls under the first part. *)
Theorem unauthorized_without_secret (req : Request) (s : RemoteState) :
  req_path req <> "/health" ->
  (forall k, req_api_key req = Some k -> MCP_API_KEY proc <> Some k) ->
  app req s = (Normal unauthorized, [], s) /\
  status unauthorized = 401 /\
  forall m key b,
    app {| req_method := m; req_path := "/health"; req_api_key := key; req_body := b |} =
    dispatch routes {| req_method := m; req_path := "/health"; req_api_key := key; req_body := b |}.
Proof.
  intros Hpath Hlack. split; [| split; [reflexivity | reflexivity]].
  rewrite guarded_path by assumption. apply guard_rejects.
  destruct (req_api_key req) as [k |] eqn:Hkey; [| reflexivity].
  apply orb_true_iff. right.
  destruct (differs (Some k) (MCP_API_KEY proc)) eqn:Hd; [reflexivity |].
  apply differs_unless_equal in Hd. exfalso. apply (Hlack k); [reflexivity | congruence].
Qed.

(** C10. The guard fails closed.  On every path other than [/health], a
    request whose [x-api-key] header is absent or empty is answered 401
    whatever secret is configured, and when no secret is configured every
    request is answered 401 whatever its header; no outbound call is made
    in either case. *)
Theorem guard_fails_closed (req : Request) (s : RemoteState) :
  req_path req <> "/health" ->
  req_api_key req = None \/ req_api_key req = Some "" \/ MCP_API_KEY proc = None ->
  app req s = (Normal unauthorized, [], s) /\ status unauthorized = 401.
Proof.
  intros Hpath Hcase. split; [| reflexivity].
  rewrite guarded_path by assumption. apply guard_rejects.
  destruct Hcase as [-> | [-> | Hnone]]; [reflexivity | reflexivity |].
  rewrite Hnone. destruct (req_api_key req) as [k |]; [| reflexivity].
  simpl. apply orb_true_r.
Qed.

(** *** Handlers that make one call

    Six handlers obtain the client, await one call and reshape its answer
    inside a [try]; whatever is thrown on the way becomes the answer of the
    [catch] block. *)
Lemma one_call (f : JValue -> Completion Response) (h : Exn -> Response)
    (m : Method) (url : string) (payload : Payload) (s : RemoteState) :
  try_catch RemoteState
    (bind RemoteState (lift RemoteState getVercelClient) (fun client =>
       bind RemoteState (request client m url payload)
         (fun data => lift RemoteState (f data))))
    (fun e => ret RemoteState (h e)) s =
  match getVercelClient with
  | Throw e => (Normal (h e), [], s)
  | Normal client =>
      let c := {| call_bearer := client; call_method := m;
                  call_url := url; call_data := payload |} in
      (Normal (match cbind (settle (remote s c).1) f with
               | Normal r => r
               | Throw e => h e
               end), [c], (remote s c).2)
  end.
Proof.
  unfold try_catch, bind, lift, Gateway.request, await_call, ret.
  destruct getVercelClient as [client | e]; [| reflexivity].
  simpl. destruct (remote s _) as [[data | msg d] s']; simpl; [| reflexivity].
  destruct (f data); reflexivity.
Qed.

(** *** Triggering a deployment *)

(** The two validation tests reject on falsy values. *)
Lemma deploy_rejects_falsy (req : Request) (s : RemoteState) :
  nullish (req_body req) = false ->
  truthy (get_opt (req_body req) "name") = false \/
  truthy (get_opt (req_body req) "gitSource") = false \/
  truthy (get_opt (get_opt (req_body req) "gitSource") "repo") = false ->
  exists msg,
    (msg = "Project name is required" \/ msg = "Git source is required") /\
    deploy req s = (Normal (bad_request msg), [], s).
Proof.
  intros Hbody Hcase. unfold Gateway.deploy.
  rewrite (destructure_defined _ _ _ Hbody).
  unfold try_catch, bind, lift. rewrite !(get_defined _ _ Hbody). simpl.
  destruct (truthy (get_opt (req_body req) "name")) eqn:Hname; simpl;
    [| eexists; split; [left; reflexivity | reflexivity]].
  unfold no_git_source.
  destruct (truthy (get_opt (req_body req) "gitSource")) eqn:Hsrc; simpl;
    [| eexists; split; [right; reflexivity | reflexivity]].
  rewrite (get_defined _ _ (truthy_defined _ Hsrc)). simpl.
  destruct (truthy (get_opt (get_opt (req_body req) "gitSource") "repo")) eqn:Hrepo; simpl;
    [| eexists; split; [right; reflexivity | reflexivity]].
  destruct Hcase as [H | [H | H]]; discriminate.
Qed.

(** What the handler does with a request that passes validation. *)
Lemma deploy_valid (req : Request) (s : RemoteState) :
  nullish (req_body req) = false ->
  truthy (get_opt (req_body req) "name") = true ->
  truthy (get_opt (req_body req) "gitSource") = true ->
  truthy (get_opt (get_opt (req_body req) "gitSource") "repo") = true ->
  deploy req s =
  match getVercelClient with
  | Throw e => (Normal (envelope "Failed to trigger deployment" e), [], s)
  | Normal client =>
      match deploymentData (get_opt (req_body req) "name")
                           (get_opt (req_body req) "gitSource")
                           (get_opt (req_body req) "framework")
                           (get_opt (req_body req) "buildCommand")
                           (get_opt (req_body req) "envVariables") with
      | Throw e => (Normal (envelope "Failed to trigger deployment" e), [], s)
      | Normal d =>
          (Normal (match cbind (settle (remote s (deploy_call client d)).1) deployed with
                   | Normal r => r
                   | Throw e => envelope "Failed to trigger deployment" e
                   end),
           [deploy_call client d], (remote s (deploy_call client d)).2)
      end
  end.
Proof.
  intros Hbody Hname Hsrc Hrepo. unfold Gateway.deploy.
  rewrite (destructure_defined _ _ _ Hbody).
  unfold try_catch, bind, lift, fail, ret, Gateway.request, await_call.
  rewrite !(get_defined _ _ Hbody). simpl. rewrite Hname. simpl.
  unfold no_git_source. rewrite Hsrc. simpl.
  rewrite (get_defined _ _ (truthy_defined _ Hsrc)). simpl. rewrite Hrepo. simpl.
  destruct getVercelClient as [client | e]; [| reflexivity]. simpl.
  destruct (deploymentData _ _ _ _ _) as [d | e]; [| reflexivity]. simpl.
  unfold deploy_call.
  destruct (remote s _) as [[data | msg rd] s']; simpl; [| reflexivity].
  destruct (deployed data); reflexivity.
Qed.

Lemma deploymentData_shape (name gitSource framework buildCommand envVariables : JValue)
    (d : DeploymentData) :
  truthy gitSource = true ->
  deploymentData name gitSource framework buildCommand envVariables = Normal d ->
  dd_name d = name /\
  dd_target d = "preview" /\
  gs_type (dd_gitSource d) = or_else (get_opt gitSource "type") (JStr "github") /\
  gs_repo (dd_gitSource d) = get_opt gitSource "repo" /\
  gs_ref (dd_gitSource d) = or_else (get_opt gitSource "ref") (JStr "main").
Proof.
  intros Hsrc. unfold deploymentData.
  rewrite !(get_defined _ _ (truthy_defined _ Hsrc)). simpl.
  destruct envVariables as [| | | | | items |]; simpl;
    try (intros [= <-]; simpl; repeat split; reflexivity).
  destruct (reduce env_step items empty_object); simpl; [| discriminate].
  intros [= <-]. simpl. repeat split; reflexivity.
Qed.

(** Without an [envVariables] array nothing in the construction throws. *)
Lemma deploymentData_total (name gitSource framework buildCommand envVariables : JValue) :
  truthy gitSource = true ->
  (forall items, envVariables <> JArr items) ->
  exists d, deploymentData name gitSource framework buildCommand envVariables = Normal d.
Proof.
  intros Hsrc Hnot. unfold deploymentData.
  rewrite !(get_defined _ _ (truthy_defined _ Hsrc)). simpl.
  destruct envVariables as [| | | | | items |]; simpl; try (eexists; reflexivity).
  exfalso. apply (Hnot items). reflexivity.
Qed.

(** C2. For a request that passes validation, the handler sends at most one
    call, a [POST /v13/deployments], and it does send it once the token is
    configured and the payload is built.  In the payload [gitSource.type]
    is ["github"] when the caller gave none, [gitSource.ref] is ["main"]
    when the caller gave none, and [target] is ["preview"], whatever the
    request body contains. *)
Theorem deploy_payload_defaults (req : Request) (s : RemoteState) :
  nullish (req_body req) = false ->
  truthy (get_opt (req_body req) "name") = true ->
  truthy (get_opt (req_body req) "gitSource") = true ->
  truthy (get_opt (get_opt (req_body req) "gitSource") "repo") = true ->
  (forall client d,
      getVercelClient = Normal client ->
      deploymentData (get_opt (req_body req) "name")
                     (get_opt (req_body req) "gitSource")
                     (get_opt (req_body req) "framework")
                     (get_opt (req_body req) "buildCommand")
                     (get_opt (req_body req) "envVariables") = Normal d ->
      (deploy req s).1.2 = [deploy_call client d]) /\
  (forall c, c ∈ (deploy req s).1.2 ->
     exists client d,
       c = deploy_call client d /\
       dd_target d = "preview" /\
       (get_opt (get_opt (req_body req) "gitSource") "type" = JUndefined ->
        gs_type (dd_gitSource d) = JStr "github") /\
       (get_opt (get_opt (req_body req) "gitSource") "ref" = JUndefined ->
        gs_ref (dd_gitSource d) = JStr "main")).
Proof.
  intros Hbody Hname Hsrc Hrepo.
  rewrite (deploy_valid req s Hbody Hname Hsrc Hrepo).
  split.
  - intros client d -> ->. reflexivity.
  - intros c. destruct getVercelClient as [client | e]; simpl; [| intros H; inversion H].
    destruct (deploymentData _ _ _ _ _) as [d | e] eqn:Hd; simpl; [| intros H; inversion H].
    intros Hc. apply list_elem_of_singleton in Hc. subst c.
    destruct (deploymentData_shape _ _ _ _ _ d Hsrc Hd) as (_ & Htarget & Htype & _ & Href).
    exists client, d. repeat split; [assumption | |].
    + intros Habsent. rewrite Htype, Habsent. reflexivity.
    + intros Habsent. rewrite Href, Habsent. reflexivity.
Qed.

(** C3. A deploy request whose [name] is absent or empty, whose [gitSource]
    is absent, or whose [gitSource.repo] is absent or empty, is answered
    with status 400 and an error body; no outbound call is made and the
    platform is left untouched. *)
Theorem deploy_validation_rejects (req : Request) (s : RemoteState) :
  nullish (req_body req) = false ->
  (get_opt (req_body req) "name" = JUndefined \/
   get_opt (req_body req) "name" = JStr "") \/
  get_opt (req_body req) "gitSource" = JUndefined \/
  (get_opt (get_opt (req_body req) "gitSource") "repo" = JUndefined \/
   get_opt (get_opt (req_body req) "gitSource") "repo" = JStr "") ->
  exists msg,
    (msg = "Project name is required" \/ msg = "Git source is required") /\
    deploy req s = (Normal (bad_request msg), [], s) /\
    status (bad_request msg) = 400.
Proof.
  intros Hbody Hcase.
  destruct (deploy_rejects_falsy req s Hbody) as (msg & Hwhich & Hmsg).
  - destruct Hcase as [[H | H] | [H | [H | H]]]; rewrite H; auto.
  - exists msg. split; [exact Hwhich |]. split; [exact Hmsg | reflexivity].
Qed.

(** *** Folding [envVariables] *)

Lemma env_step_spec (acc acc' : Obj) (env : JValue) :
  env_step acc env = Normal acc' ->
  exists k, key_of env = Normal k /\ acc' = set_property acc k (get_opt env "value").
Proof.
  unfold env_step, key_of.
  destruct (nullish env) eqn:Hnull.
  - destruct env; simpl in *; discriminate.
  - rewrite !(get_defined _ _ Hnull). simpl.
    destruct (to_string (get_opt env "key")) as [k | e]; simpl; [| discriminate].
    intros [= <-]. exists k. split; reflexivity.
Qed.

(** Keys other than [__proto__] are plain own properties. *)
Lemma set_property_lookup (o : Obj) (k : string) (v : JValue) :
  k <> "__proto__" -> own_props (set_property o k v) !! k = Some v.
Proof.
  intros Hk. unfold set_property.
  destruct (String.eqb_spec k "__proto__") as [Heq | _]; [contradiction |].
  simpl. apply lookup_insert_eq.
Qed.

Lemma set_property_other (o : Obj) (k k' : string) (v : JValue) :
  k <> "__proto__" -> k' <> k ->
  own_props (set_property o k' v) !! k = own_props o !! k.
Proof.
  intros Hk Hne. unfold set_property.
  destruct (String.eqb k' "__proto__" && reaches_proto_accessor o).
  - destruct v; reflexivity.
  - simpl. apply lookup_insert_ne. exact Hne.
Qed.

Lemma reduce_keeps (k : string) (items : list JValue) (acc acc' : Obj) :
  k <> "__proto__" ->
  (forall env, env ∈ items -> key_of env <> Normal k) ->
  reduce env_step items acc = Normal acc' ->
  own_props acc' !! k = own_props acc !! k.
Proof.
  intros Hk. revert acc. induction items as [| env items IH]; intros acc Hnone; simpl.
  - intros [= <-]. reflexivity.
  - destruct (env_step acc env) as [acc1 |] eqn:Hstep; simpl; [| discriminate].
    intros Hrest. destruct (env_step_spec _ _ _ Hstep) as (k' & Hkey & ->).
    rewrite (IH _ (fun e He => Hnone e (list_elem_of_further _ _ _ He)) Hrest).
    apply set_property_other; [exact Hk |].
    intros ->. apply (Hnone env); [apply list_elem_of_here | exact Hkey].
Qed.

(** Last write wins for every key but [__proto__]: after the fold, a key
    holds the value of the last entry that names it. *)
Lemma env_last_write_wins (k : string) (before after : list JValue) (env : JValue)
    (acc : Obj) :
  k <> "__proto__" ->
  key_of env = Normal k ->
  (forall later, later ∈ after -> key_of later <> Normal k) ->
  reduce env_step (before ++ env :: after) empty_object = Normal acc ->
  own_props acc !! k = Some (get_opt env "value").
Proof.
  intros Hk Hkey Hlast. generalize empty_object as start.
  induction before as [| e before IH]; intros start; simpl.
  - destruct (env_step start env) as [acc1 |] eqn:Hstep; simpl; [| discriminate].
    intros Hrest. destruct (env_step_spec _ _ _ Hstep) as (k' & Hkey' & ->).
    rewrite (reduce_keeps k after _ acc Hk Hlast Hrest).
    assert (k' = k) as -> by congruence.
    apply set_property_lookup. exact Hk.
  - destruct (env_step start e) as [acc1 |]; simpl; [| discriminate].
    apply IH.
Qed.

(** *** Scheme prefixes *)

Lemma scheme_count_with_scheme (host : string) :
  scheme_count (with_scheme host) = S (scheme_count host).
Proof. destruct host; reflexivity. Qed.

(** *** Strings *)

Lemma prefix_app (p s : string) :
  String.prefix p s = true <-> exists post, s = p +:+ post.
Proof.
  revert s. induction p as [| a p IH]; intros s.
  - split; [intros _; exists s; reflexivity | intros _; destruct s; reflexivity].
  - destruct s as [| b s]; [split; [discriminate | intros [post H]; discriminate] |].
    simpl. destruct (ascii_dec a b) as [-> | Hne].
    + rewrite IH. split; intros [post H]; exists post; [rewrite H; reflexivity |].
      injection H as H. exact H.
    + split; [discriminate |]. intros [post H]. injection H as H1 H2. congruence.
Qed.

Lemma includes_unfold (s pat : string) :
  includes s pat =
  String.prefix pat s ||
  match s with
  | EmptyString => false
  | String _ s' => includes s' pat
  end.
Proof.
  destruct s as [| c s]; simpl.
  - destruct (String.prefix pat ""); reflexivity.
  - destruct (String.prefix pat (String c s)); reflexivity.
Qed.

Lemma includes_app (s pat : string) :
  includes s pat = true <-> exists pre post, s = pre +:+ pat +:+ post.
Proof.
  induction s as [| c s IH]; rewrite includes_unfold.
  - rewrite orb_false_r, prefix_app. split.
    + intros [post H]. exists "", post. exact H.
    + intros (pre & post & H). destruct pre; [| discriminate]. exists post. exact H.
  - rewrite orb_true_iff, prefix_app, IH. split.
    + intros [[post H] | (pre & post & H)].
      * exists "", post. exact H.
      * exists (String c pre), post. rewrite H. reflexivity.
    + intros (pre & post & H). destruct pre as [| c' pre].
      * left. exists post. exact H.
      * right. injection H as _ H. exists pre, post. exact H.
Qed.

Lemma toLowerCase_app (a b : string) :
  toLowerCase (a +:+ b) = toLowerCase a +:+ toLowerCase b.
Proof. induction a as [| c a IH]; simpl; [reflexivity | rewrite IH; reflexivity]. Qed.

Lemma toLowerCase_split (s a b : string) :
  toLowerCase s = a +:+ b ->
  exists sa sb, s = sa +:+ sb /\ toLowerCase sa = a /\ toLowerCase sb = b.
Proof.
  revert s. induction a as [| c a IH]; intros s; simpl.
  - intros H. exists "", s. auto.
  - destruct s as [| c' s]; simpl; [discriminate |].
    intros [= Hc H]. destruct (IH _ H) as (sa & sb & -> & Ha & Hb).
    exists (String c' sa), sb. simpl. rewrite Ha, Hc. auto.
Qed.

(** The test of the source, lowering then searching, decides
    case-insensitive containment. *)
Lemma includes_ignoring_case (s pat : string) :
  includes (toLowerCase s) (toLowerCase pat) = true <-> contains_ignoring_case s pat.
Proof.
  rewrite includes_app. unfold contains_ignoring_case, same_ignoring_case. split.
  - intros (pre & post & H).
    destruct (toLowerCase_split _ _ _ H) as (sa & rest & -> & _ & Hrest).
    destruct (toLowerCase_split _ _ _ Hrest) as (mid & sb & -> & Hmid & _).
    exists sa, mid, sb. auto.
  - intros (pre & mid & post & -> & Hmid).
    exists (toLowerCase pre), (toLowerCase post).
    rewrite !toLowerCase_app, Hmid. reflexivity.
Qed.

(** *** Routing *)

Lemma guard_passes (req : Request) (next : IO Response) (k : string) :
  req_api_key req = Some k -> k <> "" -> MCP_API_KEY proc = Some k ->
  authenticateAPI req next = next.
Proof.
  intros Hkey Hfull Hsecret. unfold Gateway.authenticateAPI.
  rewrite Hkey, Hsecret. simpl.
  destruct (String.eqb_spec k "") as [-> | _]; [contradiction |].
  rewrite String.eqb_refl. reflexivity.
Qed.

Lemma route_health (req : Request) :
  req_method req = GET -> req_path req = "/health" -> app req = health.
Proof.
  intros Hm Hp. unfold Gateway.app, Gateway.dispatch, Gateway.routes.
  rewrite Hm, Hp. reflexivity.
Qed.

Lemma route_deploy (req : Request) :
  req_method req = POST -> req_path req = "/api/deploy" ->
  dispatch routes req = deploy req.
Proof.
  intros Hm Hp. unfold Gateway.dispatch, Gateway.routes. rewrite Hm, Hp. reflexivity.
Qed.

Lemma route_env (req : Request) :
  req_method req = POST -> req_path req = "/api/env" ->
  dispatch routes req = set_env req.
Proof.
  intros Hm Hp. unfold Gateway.dispatch, Gateway.routes. rewrite Hm, Hp. reflexivity.
Qed.

Lemma no_slash_cons (c : ascii) (id : string) :
  includes (String c id) "/" = false -> c <> "/"%char /\ includes id "/" = false.
Proof.
  rewrite includes_unfold. intros [Hhere Hrest]%orb_false_iff. split; [| exact Hrest].
  intros ->. assert (String.prefix "/" (String "/" id) = true) as Hp
    by (apply prefix_app; exists id; reflexivity).
  congruence.
Qed.

Lemma split_path_segment (id rest : string) :
  includes id "/" = false ->
  split_path (id +:+ String "/" rest) = id :: split_path rest.
Proof.
  induction id as [| c id IH]; intros Hid; [reflexivity |].
  apply no_slash_cons in Hid as [Hc Hid].
  change (String c id +:+ String "/" rest) with (String c (id +:+ String "/" rest)).
  cbn [split_path]. rewrite (IH Hid).
  destruct (Ascii.eqb_spec c "/"); [contradiction | reflexivity].
Qed.

Lemma route_errors (req : Request) (val id : string) :
  is_segment val = true ->
  decode_param val = Normal id ->
  req_method req = GET ->
  req_path req = "/api/deploy/" +:+ val +:+ "/errors" ->
  dispatch routes req = deploy_errors id.
Proof.
  intros [Hfull Hval]%andb_true_iff Hid Hm Hp.
  apply negb_true_iff in Hfull. apply negb_true_iff in Hval.
  destruct val as [| c v]; [discriminate |].
  unfold Gateway.dispatch, Gateway.routes, match_route. rewrite Hm, Hp.
  change ("/api/deploy/" +:+ String c v +:+ "/errors")
    with (String "/" (String "a" (String "p" (String "i" (String "/"
            (String "d" (String "e" (String "p" (String "l" (String "o" (String "y"
               (String "/" (String c v +:+ String "/" "errors"))))))))))))).
  cbn [split_path Ascii.eqb Bool.eqb].
  rewrite (split_path_segment (String c v) "errors" Hval).
  change (match decode_param (String c v) with
          | Normal id0 => deploy_errors id0
          | Throw error => error_middleware RemoteState proc error
          end = deploy_errors id).
  rewrite Hid. reflexivity.
Qed.

(** *** Extracting errors *)

Lemma is_string_spec (lit : string) (v : JValue) :
  is_string lit v = true <-> v = JStr lit.
Proof.
  destruct v; simpl; try (split; [discriminate | discriminate]).
  destruct (String.eqb_spec s lit); split; congruence.
Qed.

Lemma nothing_in_empty_text : ~ contains_ignoring_case "" "error".
Proof.
  intros H. apply includes_ignoring_case in H. discriminate.
Qed.

Lemma is_event_defined (ev : JValue) : is_event ev = true -> nullish ev = false.
Proof. destruct ev; simpl; congruence. Qed.

Lemma is_error_event_spec (ev : JValue) :
  is_event ev = true ->
  exists keep, is_error_event ev = Normal keep /\ (keep = true <-> reports_error ev).
Proof.
  intros Hev. pose proof (is_event_defined _ Hev) as Hdef.
  unfold is_error_event, reports_error. rewrite !(get_defined _ _ Hdef). simpl.
  destruct (is_string "stderr" (get_opt ev "type")) eqn:Htype.
  - exists true. split; [reflexivity |]. apply is_string_spec in Htype. tauto.
  - assert (get_opt ev "type" <> JStr "stderr") as Hne.
    { intros H. apply is_string_spec in H. congruence. }
    unfold is_event in Hev. destruct ev; try discriminate.
    fold (event_text (JObj fields)).
    destruct (event_text (JObj fields)) as [| | | | text | |] eqn:Htext;
      try discriminate; simpl.
    + exists false. split; [reflexivity |].
      split; [discriminate |]. intros [H | (t & H & _)]; [contradiction | discriminate].
    + exists false. split; [reflexivity |].
      split; [discriminate |]. intros [H | (t & H & _)]; [contradiction | discriminate].
    + destruct (String.eqb_spec text "") as [-> | Hfull]; simpl.
      * exists false. split; [reflexivity |]. split; [discriminate |].
        intros [H | (t & [= <-] & H)]; [contradiction |].
        destruct (nothing_in_empty_text H).
      * exists (includes (toLowerCase text) "error"). split; [reflexivity |].
        rewrite (includes_ignoring_case text "error"). split.
        -- intros H. right. exists text. auto.
        -- intros [H | (t & [= <-] & H)]; [contradiction | exact H].
Qed.

Lemma error_entry_spec (ev : JValue) :
  is_event ev = true -> error_entry ev = Normal (reported ev).
Proof.
  intros Hev. pose proof (is_event_defined _ Hev) as Hdef.
  unfold error_entry, reported, reported_message, fallback_message.
  rewrite !(get_defined _ _ Hdef). simpl.
  unfold is_event in Hev. destruct ev; try discriminate.
  fold (event_text (JObj fields)). fold (event_message (JObj fields)).
  unfold or_else.
  destruct (event_text (JObj fields)) as [| | | | text | |]; try discriminate; simpl;
    try reflexivity.
  destruct (String.eqb text "") eqn:Hempty; simpl; rewrite ?Hempty; reflexivity.
Qed.

Lemma filter_events (events : list JValue) :
  forallb is_event events = true ->
  exists kept,
    cfilter is_error_event events = Normal kept /\
    selects reports_error events kept /\
    forallb is_event kept = true.
Proof.
  induction events as [| ev events IH]; simpl.
  - intros _. exists []. repeat split. constructor.
  - intros [Hev Hrest]%andb_true_iff.
    destruct (IH Hrest) as (kept & Hkept & Hsel & Hall).
    destruct (is_error_event_spec ev Hev) as (keep & -> & Hkeep). simpl.
    rewrite Hkept. simpl. destruct keep.
    + exists (ev :: kept). repeat split.
      * constructor; [apply Hkeep; reflexivity | exact Hsel].
      * simpl. rewrite Hev, Hall. reflexivity.
    + exists kept. repeat split; [| exact Hall].
      apply selects_skip; [| exact Hsel]. intros H. apply Hkeep in H. discriminate.
Qed.

Lemma map_events (kept : list JValue) :
  forallb is_event kept = true -> cmap error_entry kept = Normal (map reported kept).
Proof.
  induction kept as [| ev kept IH]; simpl; [reflexivity |].
  intros [Hev Hrest]%andb_true_iff.
  rewrite (error_entry_spec ev Hev), (IH Hrest). reflexivity.
Qed.

(** C5, amended. For every event list the platform returns, the errors
    handler answers 200 with [success: true]; [errors] holds one entry for
    each event whose type is exactly ["stderr"] or whose [payload.text]
    contains ["error"] in any letter case, and for no other, in the order
    of the stream; an entry is [{timestamp: created, message}] where
    [message] is [payload.text] when that is a non-empty string, else
    [payload.message] when that is truthy, else ["Unknown error"];
    [hasErrors] is true exactly when [errors] is not empty. *)
Theorem errors_extraction (id client : string) (events : list JValue) (s : RemoteState) :
  getVercelClient = Normal client ->
  (remote s (events_call client id)).1 = Resolved (JArr events) ->
  forallb is_event events = true ->
  exists kept has,
    selects reports_error events kept /\
    (has = true <-> map reported kept <> []) /\
    deploy_errors id s =
    (Normal (json (JObj [("success", JBool true);
                         ("errors", JArr (map reported kept));
                         ("hasErrors", JBool has)])),
     [events_call client id], (remote s (events_call client id)).2).
Proof.
  intros Hclient Hreply Hevents.
  destruct (filter_events events Hevents) as (kept & Hkept & Hsel & Hall).
  exists kept, (0 <? length (map reported kept))%nat. split; [exact Hsel |]. split.
  - destruct kept as [| ev kept']; simpl.
    + split; [discriminate | intros H; destruct (H eq_refl)].
    + split; [discriminate | reflexivity].
  - unfold Gateway.deploy_errors, fail.
    rewrite (one_call errors_of). rewrite Hclient. simpl.
    fold (events_call client id). rewrite Hreply. simpl.
    unfold errors_of. simpl. rewrite Hkept. simpl.
    rewrite (map_events kept Hall). reflexivity.
Qed.

(** *** Rebuilding URLs *)

(** C8. The three handlers that rebuild a URL put ["https://"] in front of
    the host the platform returned: for every bare host, one that holds no
    scheme separator, the URL they produce has exactly one scheme prefix,
    never two. *)
Theorem url_has_one_scheme (host : string) :
  scheme_count host = 0 ->
  (forall data, nullish data = false -> get_opt data "url" = JStr host ->
     exists r, deployed data = Normal r /\ status r = 200 /\
               deployment_url r = JStr (with_scheme host)) /\
  (forall data, nullish data = false -> get_opt data "url" = JStr host ->
     exists r, status_of data = Normal r /\ status r = 200 /\
               deployment_url r = JStr (with_scheme host)) /\
  (forall d, nullish d = false -> get_opt d "url" = JStr host ->
     exists entry, latest_deployment d = Normal entry /\
                   get_opt entry "url" = JStr (with_scheme host)) /\
  scheme_count (with_scheme host) = 1.
Proof.
  intros Hbare. repeat split.
  - intros data Hdef Hurl. unfold deployed.
    rewrite !(get_defined _ _ Hdef), Hurl. simpl. eexists. repeat split.
  - intros data Hdef Hurl. unfold status_of.
    rewrite !(get_defined _ _ Hdef), Hurl. simpl. eexists. repeat split.
  - intros d Hdef Hurl. unfold latest_deployment.
    rewrite !(get_defined _ _ Hdef), Hurl. simpl. eexists. repeat split.
  - rewrite scheme_count_with_scheme, Hbare. reflexivity.
Qed.

(** *** The liveness probe *)


(** *** Setting environment variables *)

(** Whatever the schedule, the platform receives every request in flight
    exactly once. *)
Lemma arrival_permutation {A} (choices : list nat) (xs : list A) :
  arrival choices xs ≡ₚ xs.
Proof.
  revert choices. induction xs as [| x xs IH]; intros choices; simpl; [reflexivity |].
  unfold insert_at. rewrite <- Permutation_middle, take_drop, IH. reflexivity.
Qed.

Lemma dispatch_writes_all (client project : string) (projectId : JValue)
    (es : list (string * JValue)) :
  to_string projectId = Normal project ->
  dispatch_writes client projectId es =
  (map (fun kv => env_write client project kv.1 kv.2) es, None).
Proof.
  intros Hp. induction es as [| [key value] es IH]; simpl; [reflexivity |].
  rewrite Hp, IH. reflexivity.
Qed.

(** With an empty list of entries the template of the URL is never
    evaluated. *)
Lemma dispatch_writes_none (client : string) (projectId : JValue) :
  dispatch_writes client projectId [] = ([], None).
Proof. reflexivity. Qed.

Lemma first_rejection_found (rs : list Reply) :
  (exists message rd, Rejected message rd ∈ rs) ->
  exists message rd,
    Rejected message rd ∈ rs /\ first_rejection rs = Some (AxiosError message rd).
Proof.
  induction rs as [| r rs IH]; intros (message & rd & Hin).
  - inversion Hin.
  - destruct r as [data | m d]; simpl.
    + apply elem_of_cons in Hin as [Hin | Hin]; [discriminate |].
      destruct IH as (m & d & Hm & Hfirst); [eauto |].
      exists m, d. split; [apply list_elem_of_further; exact Hm | exact Hfirst].
    + exists m, d. split; [apply list_elem_of_here | reflexivity].
Qed.

(** What the handler does with a request that passes validation. *)
Lemma set_env_valid (req : Request) (s : RemoteState) :
  nullish (req_body req) = false ->
  truthy (get_opt (req_body req) "projectId") = true ->
  truthy (get_opt (req_body req) "env") = true ->
  set_env req s =
  match getVercelClient with
  | Throw e => (Normal (envelope "Failed to set environment variables" e), [], s)
  | Normal client =>
      let dispatched :=
        dispatch_writes client (get_opt (req_body req) "projectId")
                        (entries (get_opt (req_body req) "env")) in
      let served := serve (arrival schedule dispatched.1) s in
      (Normal (match dispatched.2 with
               | Some e => envelope "Failed to set environment variables" e
               | None =>
                   match first_rejection served.1 with
                   | Some e => envelope "Failed to set environment variables" e
                   | None => env_set
                   end
               end), dispatched.1, served.2)
  end.
Proof.
  intros Hbody Hpid Henv. unfold Gateway.set_env.
  rewrite (destructure_defined _ _ _ Hbody).
  unfold try_catch, bind, lift, fail, ret, promise_all.
  rewrite !(get_defined _ _ Hbody). simpl. rewrite Hpid, Henv. simpl.
  destruct getVercelClient as [client | e]; [| reflexivity]. simpl.
  destruct (dispatch_writes _ _ _) as [cs thrown]. simpl.
  destruct (serve _ s) as [replies s']. simpl.
  destruct thrown as [e |]; simpl; [rewrite app_nil_r; reflexivity |].
  destruct (first_rejection replies); simpl; rewrite app_nil_r; reflexivity.
Qed.

(** The handler always answers. *)
Lemma set_env_answers (req : Request) (s : RemoteState) :
  exists r, (set_env req s).1.1 = Normal r /\
    (status r = 400 <->
     nullish (req_body req) = false /\
     (truthy (get_opt (req_body req) "projectId") = false \/
      truthy (get_opt (req_body req) "env") = false)).
Proof.
  destruct (nullish (req_body req)) eqn:Hbody.
  - unfold Gateway.set_env, destructure, try_catch, bind, lift, fail, ret.
    rewrite Hbody. simpl. eexists. split; [reflexivity |]. simpl.
    split; [discriminate | intros [H _]; discriminate].
  - destruct (truthy (get_opt (req_body req) "projectId")) eqn:Hpid;
      [destruct (truthy (get_opt (req_body req) "env")) eqn:Henv |].
    + rewrite (set_env_valid req s Hbody Hpid Henv).
      destruct getVercelClient as [client | e]; simpl.
      * eexists. split; [reflexivity |].
        destruct ((dispatch_writes _ _ _).2); simpl;
          [| destruct (first_rejection _); simpl];
          (split; [discriminate | intros [_ [H | H]]; discriminate]).
      * eexists. split; [reflexivity |]. simpl.
        split; [discriminate | intros [_ [H | H]]; discriminate].
    + unfold Gateway.set_env. rewrite (destructure_defined _ _ _ Hbody).
      unfold try_catch, bind, lift, fail, ret.
      rewrite !(get_defined _ _ Hbody). simpl. rewrite Hpid, Henv. simpl.
      eexists. split; [reflexivity |]. simpl. split; [auto | reflexivity].
    + unfold Gateway.set_env. rewrite (destructure_defined _ _ _ Hbody).
      unfold try_catch, bind, lift, fail, ret.
      rewrite !(get_defined _ _ Hbody). simpl. rewrite Hpid. simpl.
      eexists. split; [reflexivity |]. simpl. split; [auto | reflexivity].
Qed.

(** C4. When one of the writes of an environment-variable request is
    rejected, the handler answers 500 with the error envelope, whose
    details come from a rejected write and say nothing of the others.  The
    calls it made are the writes, one [POST] per entry and nothing else
    (nothing undoes a write that went through), and the platform is left
    in the state it reached by serving them all.  The writes depend on the
    request alone: running the handler again, from whatever state, issues
    the same list once more. *)
Theorem env_partial_failure (req : Request) (client project : string) (s : RemoteState) :
  nullish (req_body req) = false ->
  truthy (get_opt (req_body req) "projectId") = true ->
  truthy (get_opt (req_body req) "env") = true ->
  getVercelClient = Normal client ->
  to_string (get_opt (req_body req) "projectId") = Normal project ->
  (exists message rd,
      Rejected message rd ∈
        (serve (arrival schedule (env_writes client project (get_opt (req_body req) "env"))) s).1) ->
  (exists message rd,
      Rejected message rd ∈
        (serve (arrival schedule (env_writes client project (get_opt (req_body req) "env"))) s).1 /\
      set_env req s =
      (Normal {| status := 500;
                 body := JObj [("error", JStr "Failed to set environment variables");
                               ("details", details_of (AxiosError message rd))] |},
       env_writes client project (get_opt (req_body req) "env"),
       (serve (arrival schedule (env_writes client project (get_opt (req_body req) "env"))) s).2)) /\
  (forall s', (set_env req s').1.2 = env_writes client project (get_opt (req_body req) "env")).
Proof.
  intros Hbody Hpid Henv Hclient Hproject Hfail. split.
  - rewrite (set_env_valid req s Hbody Hpid Henv), Hclient.
    rewrite (dispatch_writes_all client project _ _ Hproject). simpl.
    fold (env_writes client project (get_opt (req_body req) "env")).
    destruct (first_rejection_found _ Hfail) as (message & rd & Hin & Hfirst).
    exists message, rd. split; [exact Hin |]. rewrite Hfirst. reflexivity.
  - intros s'. rewrite (set_env_valid req s' Hbody Hpid Henv), Hclient.
    rewrite (dispatch_writes_all client project _ _ Hproject). reflexivity.
Qed.

(** C9. An empty [env] object is accepted: with a truthy [projectId] and
    [env] equal to [{}] the handler issues no write and answers with the
    success message.  Status 400 is the answer exactly when [projectId] or
    [env] is falsy, for every request with a body. *)
Theorem empty_env_accepted (req : Request) (client : string) (s : RemoteState) :
  nullish (req_body req) = false ->
  truthy (get_opt (req_body req) "projectId") = true ->
  get_opt (req_body req) "env" = JObj [] ->
  getVercelClient = Normal client ->
  set_env req s = (Normal env_set, [], s) /\
  status env_set = 200 /\
  forall req' s',
    exists r, (set_env req' s').1.1 = Normal r /\
      (status r = 400 <->
       nullish (req_body req') = false /\
       (truthy (get_opt (req_body req') "projectId") = false \/
        truthy (get_opt (req_body req') "env") = false)).
Proof.
  intros Hbody Hpid Henv Hclient. split; [| split; [reflexivity |]].
  - rewrite (set_env_valid req s Hbody Hpid) by (rewrite Henv; reflexivity).
    rewrite Hclient, Henv. reflexivity.
  - intros req' s'. apply set_env_answers.
Qed.

(** *** Every answer of the application *)

Abbreviation deploy_logs := (Gateway.deploy_logs RemoteState remote proc).
Abbreviation promote := (Gateway.promote RemoteState remote proc).
Abbreviation cancel := (Gateway.cancel RemoteState remote proc).
Abbreviation list_projects := (Gateway.list_projects RemoteState remote proc).
Abbreviation add_domain := (Gateway.add_domain RemoteState remote proc).

Lemma client_is_token (client : string) :
  getVercelClient = Normal client -> VERCEL_TOKEN proc = Some client /\ client <> "".
Proof.
  unfold Gateway.getVercelClient. destruct (VERCEL_TOKEN proc) as [token |]; [| discriminate].
  destruct (String.eqb_spec token "") as [-> | Hfull]; [discriminate |].
  intros [= <-]. split; [reflexivity | exact Hfull].
Qed.

Lemma no_client_no_token (e : Exn) :
  getVercelClient = Throw e ->
  (VERCEL_TOKEN proc = None \/ VERCEL_TOKEN proc = Some "") /\
  e = Error "VERCEL_TOKEN not configured".
Proof.
  unfold Gateway.getVercelClient. destruct (VERCEL_TOKEN proc) as [token |].
  - destruct (String.eqb_spec token "") as [-> | Hfull]; [| discriminate].
    intros [= <-]. auto.
  - intros [= <-]. auto.
Qed.

(** Steps through a chain of [let!] that ended normally. *)
Ltac unchain H :=
  repeat match type of H with
         | cbind ?c _ = Normal _ =>
             let a := fresh "a" in destruct c as [a |]; simpl in H; [| discriminate H]
         end.

Lemma healthy_status (data : JValue) (r : Response) :
  healthy proc data = Normal r -> status r = 200.
Proof. unfold healthy. intros H. unchain H. injection H as <-. reflexivity. Qed.

Lemma deployed_status (data : JValue) (r : Response) :
  deployed data = Normal r -> status r = 200.
Proof. unfold deployed. intros H. unchain H. injection H as <-. reflexivity. Qed.

Lemma status_of_status (data : JValue) (r : Response) :
  status_of data = Normal r -> status r = 200.
Proof. unfold status_of. intros H. unchain H. injection H as <-. reflexivity. Qed.

Lemma logs_of_status (data : JValue) (r : Response) :
  logs_of data = Normal r -> status r = 200.
Proof. unfold logs_of. intros H. unchain H. injection H as <-. reflexivity. Qed.

Lemma projects_of_status (data : JValue) (r : Response) :
  projects_of data = Normal r -> status r = 200.
Proof. unfold projects_of. intros H. unchain H. injection H as <-. reflexivity. Qed.

Lemma errors_of_status (data : JValue) (r : Response) :
  errors_of data = Normal r -> status r = 200.
Proof. unfold errors_of. intros H. unchain H. injection H as <-. reflexivity. Qed.

Lemma one_call_profile (f : JValue -> Completion Response) (h : Exn -> Response)
    (m : Method) (url : string) (payload : Payload) :
  (forall data r, f data = Normal r -> status r = 200) ->
  (forall e, status (h e) = 500 \/ status (h e) = 503) ->
  profile proc
    (try_catch RemoteState
       (bind RemoteState (lift RemoteState getVercelClient) (fun client =>
          bind RemoteState (request client m url payload)
            (fun data => lift RemoteState (f data))))
       (fun e => ret RemoteState (h e))).
Proof.
  intros Hf Hh s. rewrite one_call.
  destruct getVercelClient as [client | e] eqn:Hclient.
  - eexists _, _, _. split; [reflexivity |]. split.
    + destruct (cbind _ f) as [r | e] eqn:Hr.
      * left. destruct (settle _) as [data | e]; simpl in Hr; [| discriminate].
        exact (Hf _ _ Hr).
      * right. destruct (Hh e); auto.
    + intros c Hc. apply list_elem_of_singleton in Hc. subst c.
      exact (client_is_token client Hclient).
  - eexists _, _, _. split; [reflexivity |]. split.
    + right. destruct (Hh e); auto.
    + intros c Hc. inversion Hc.
Qed.

Lemma envelope_status (summary : string) (e : Exn) :
  status (envelope summary e) = 500 \/ status (envelope summary e) = 503.
Proof. left. reflexivity. Qed.

Lemma health_profile : profile proc health.
Proof.
  apply (one_call_profile (healthy proc) (unhealthy proc)).
  - apply healthy_status.
  - intros e. right. reflexivity.
Qed.

Lemma deploy_status_profile (id : string) : profile proc (deploy_status id).
Proof.
  apply (one_call_profile status_of (envelope "Failed to get deployment status")).
  - apply status_of_status.
  - apply envelope_status.
Qed.

Lemma deploy_logs_profile (id : string) : profile proc (deploy_logs id).
Proof.
  apply (one_call_profile logs_of (envelope "Failed to get deployment logs")).
  - apply logs_of_status.
  - apply envelope_status.
Qed.

Lemma deploy_errors_profile (id : string) : profile proc (deploy_errors id).
Proof.
  apply (one_call_profile errors_of (envelope "Failed to parse build errors")).
  - apply errors_of_status.
  - apply envelope_status.
Qed.

Lemma list_projects_profile : profile proc list_projects.
Proof.
  apply (one_call_profile projects_of (envelope "Failed to list projects")).
  - apply projects_of_status.
  - apply envelope_status.
Qed.

Lemma cancel_profile (id : string) : profile proc (cancel id).
Proof.
  apply (one_call_profile (fun _ => Normal (cancelled id))
           (envelope "Failed to cancel deployment")).
  - intros data r [= <-]. reflexivity.
  - apply envelope_status.
Qed.

(** What the promote handler does, step by step. *)
Lemma promote_run (id : string) (s : RemoteState) :
  promote id s =
  match getVercelClient with
  | Throw e => (Normal (envelope "Failed to promote deployment" e), [], s)
  | Normal client =>
      let fetched := remote s (deployment_call client id) in
      match cbind (settle fetched.1) patch_target with
      | Throw e =>
          (Normal (envelope "Failed to promote deployment" e),
           [deployment_call client id], fetched.2)
      | Normal (project, framework) =>
          let patched := remote fetched.2 (project_patch client project framework) in
          (Normal (match settle patched.1 with
                   | Normal _ => promoted id
                   | Throw e => envelope "Failed to promote deployment" e
                   end),
           [deployment_call client id; project_patch client project framework],
           patched.2)
      end
  end.
Proof.
  unfold Gateway.promote, try_catch, bind, lift, fail, ret, Gateway.request, await_call.
  destruct getVercelClient as [client | e]; [| reflexivity]. simpl.
  fold (deployment_call client id).
  destruct (remote s (deployment_call client id)) as [[deployment | msg rd] s1]; simpl;
    [| reflexivity].
  unfold patch_target.
  destruct (get deployment "projectId") as [projectId | e]; simpl; [| reflexivity].
  destruct (to_string projectId) as [project | e]; simpl; [| reflexivity].
  destruct (get deployment "framework") as [framework | e]; simpl; [| reflexivity].
  fold (project_patch client project framework).
  destruct (remote s1 (project_patch client project framework)) as [[data | msg rd] s2];
    reflexivity.
Qed.

Lemma promote_profile (id : string) : profile proc (promote id).
Proof.
  intros s. rewrite promote_run.
  destruct getVercelClient as [client | e] eqn:Hclient.
  - pose proof (client_is_token client Hclient) as Htoken. simpl.
    destruct (cbind _ patch_target) as [[project framework] | e].
    + eexists _, _, _. split; [reflexivity |]. split.
      * destruct (settle _); simpl; auto.
      * intros c [-> | Hc]%elem_of_cons; [exact Htoken |].
        apply list_elem_of_singleton in Hc. subst c. exact Htoken.
    + eexists _, _, _. split; [reflexivity |]. split; [auto |].
      intros c ->%list_elem_of_singleton. exact Htoken.
  - eexists _, _, _. split; [reflexivity |]. split; [auto |].
    intros c Hc. inversion Hc.
Qed.

(** What the domain handler does. *)
Lemma add_domain_run (id : string) (req : Request) (s : RemoteState) :
  add_domain id req s =
  if nullish (req_body req) then
    (Normal (envelope "Failed to add domain"
               (TypeError ("Cannot destructure property 'domain' of 'req.body' as it is " +:+
                           type_name (req_body req) +:+ "."))), [], s)
  else if truthy (get_opt (req_body req) "domain") then
    match getVercelClient with
    | Throw e => (Normal (envelope "Failed to add domain" e), [], s)
    | Normal client =>
        let added := remote s (domain_call client id (get_opt (req_body req) "domain")) in
        (Normal (match settle added.1 with
                 | Normal _ => domain_added (get_opt (req_body req) "domain")
                 | Throw e => envelope "Failed to add domain" e
                 end),
         [domain_call client id (get_opt (req_body req) "domain")], added.2)
    end
  else (Normal (bad_request "Domain is required"), [], s).
Proof.
  unfold Gateway.add_domain, destructure.
  destruct (nullish (req_body req)) eqn:Hbody; [reflexivity |].
  unfold try_catch, bind, lift, fail, ret, Gateway.request, await_call.
  rewrite (get_defined _ _ Hbody). simpl.
  destruct (truthy (get_opt (req_body req) "domain")); simpl; [| reflexivity].
  destruct getVercelClient as [client | e]; [| reflexivity]. simpl.
  fold (domain_call client id (get_opt (req_body req) "domain")).
  destruct (remote s _) as [[data | msg rd] s1]; reflexivity.
Qed.

Lemma add_domain_profile (id : string) (req : Request) : profile proc (add_domain id req).
Proof.
  intros s. rewrite add_domain_run.
  destruct (nullish (req_body req)).
  - eexists _, _, _. split; [reflexivity |]. split; [auto |]. intros c Hc. inversion Hc.
  - destruct (truthy (get_opt (req_body req) "domain")).
    + destruct getVercelClient as [client | e] eqn:Hclient.
      * eexists _, _, _. split; [reflexivity |]. split.
        -- simpl. destruct (settle _); simpl; auto.
        -- intros c ->%list_elem_of_singleton. exact (client_is_token client Hclient).
      * eexists _, _, _. split; [reflexivity |]. split; [auto |].
        intros c Hc. inversion Hc.
    + eexists _, _, _. split; [reflexivity |]. split.
      * right. right. right. auto.
      * intros c Hc. inversion Hc.
Qed.

Lemma deploy_without_body (req : Request) (s : RemoteState) :
  nullish (req_body req) = true ->
  deploy req s =
  (Normal (envelope "Failed to trigger deployment"
             (TypeError ("Cannot destructure property 'name' of 'req.body' as it is " +:+
                         type_name (req_body req) +:+ "."))), [], s).
Proof.
  intros Hbody. unfold Gateway.deploy, destructure. rewrite Hbody. reflexivity.
Qed.

Lemma deploy_profile (req : Request) : profile proc (deploy req).
Proof.
  intros s. destruct (nullish (req_body req)) eqn:Hbody.
  - rewrite (deploy_without_body req s Hbody).
    eexists _, _, _. split; [reflexivity |]. split; [auto |]. intros c Hc. inversion Hc.
  - destruct (truthy (get_opt (req_body req) "name")) eqn:Hname;
      [destruct (truthy (get_opt (req_body req) "gitSource")) eqn:Hsrc;
       [destruct (truthy (get_opt (get_opt (req_body req) "gitSource") "repo")) eqn:Hrepo |] |].
    + rewrite (deploy_valid req s Hbody Hname Hsrc Hrepo).
      destruct getVercelClient as [client | e] eqn:Hclient.
      * destruct (deploymentData _ _ _ _ _) as [d | e].
        -- eexists _, _, _. split; [reflexivity |]. split.
           ++ destruct (cbind _ deployed) as [r | e] eqn:Hr; [| auto].
              left. destruct (settle _) as [data | e]; simpl in Hr; [| discriminate].
              exact (deployed_status _ _ Hr).
           ++ intros c ->%list_elem_of_singleton. exact (client_is_token client Hclient).
        -- eexists _, _, _. split; [reflexivity |]. split; [auto |].
           intros c Hc. inversion Hc.
      * eexists _, _, _. split; [reflexivity |]. split; [auto |].
        intros c Hc. inversion Hc.
    + destruct (deploy_rejects_falsy req s Hbody) as (msg & _ & ->); [auto |].
      eexists _, _, _. split; [reflexivity |]. split.
      * right. right. right. auto.
      * intros c Hc. inversion Hc.
    + destruct (deploy_rejects_falsy req s Hbody) as (msg & _ & ->); [auto |].
      eexists _, _, _. split; [reflexivity |]. split.
      * right. right. right. auto.
      * intros c Hc. inversion Hc.
    + destruct (deploy_rejects_falsy req s Hbody) as (msg & _ & ->); [auto |].
      eexists _, _, _. split; [reflexivity |]. split.
      * right. right. right. auto.
      * intros c Hc. inversion Hc.
Qed.

(** Every request put in flight is the write of one entry. *)
Lemma dispatch_writes_calls (client : string) (projectId : JValue)
    (es : list (string * JValue)) (c : Call) :
  c ∈ (dispatch_writes client projectId es).1 ->
  exists project key value,
    to_string projectId = Normal project /\
    (key, value) ∈ es /\
    c = env_write client project key value.
Proof.
  induction es as [| [key value] es IH]; simpl; [intros Hc; inversion Hc |].
  destruct (to_string projectId) as [project | e]; [| intros Hc; inversion Hc].
  destruct (dispatch_writes client projectId es) as [cs thrown]. simpl in *.
  intros [-> | Hc]%elem_of_cons.
  - exists project, key, value. repeat split. apply list_elem_of_here.
  - destruct (IH Hc) as (p & k & v & Hp & Hin & ->).
    exists p, k, v. repeat split; [exact Hp |]. apply list_elem_of_further. exact Hin.
Qed.

Lemma set_env_rejects (req : Request) (s : RemoteState) :
  nullish (req_body req) = false ->
  truthy (get_opt (req_body req) "projectId") = false \/
  truthy (get_opt (req_body req) "env") = false ->
  set_env req s =
  (Normal (bad_request "Project ID and environment variables are required"), [], s).
Proof.
  intros Hbody Hcase. unfold Gateway.set_env.
  rewrite (destructure_defined _ _ _ Hbody).
  unfold try_catch, bind, lift, fail, ret.
  rewrite !(get_defined _ _ Hbody). simpl.
  destruct Hcase as [-> | ->]; simpl; [reflexivity |].
  rewrite orb_true_r. reflexivity.
Qed.

Lemma set_env_without_body (req : Request) (s : RemoteState) :
  nullish (req_body req) = true ->
  set_env req s =
  (Normal (envelope "Failed to set environment variables"
             (TypeError ("Cannot destructure property 'projectId' of 'req.body' as it is " +:+
                         type_name (req_body req) +:+ "."))), [], s).
Proof.
  intros Hbody. unfold Gateway.set_env, destructure. rewrite Hbody. reflexivity.
Qed.

Lemma set_env_profile (req : Request) : profile proc (set_env req).
Proof.
  intros s. destruct (nullish (req_body req)) eqn:Hbody.
  - rewrite (set_env_without_body req s Hbody).
    eexists _, _, _. split; [reflexivity |]. split; [auto |]. intros c Hc. inversion Hc.
  - destruct (truthy (get_opt (req_body req) "projectId")) eqn:Hpid;
      [destruct (truthy (get_opt (req_body req) "env")) eqn:Henv |].
    + rewrite (set_env_valid req s Hbody Hpid Henv).
      destruct getVercelClient as [client | e] eqn:Hclient.
      * eexists _, _, _. split; [reflexivity |]. split.
        -- simpl. destruct ((dispatch_writes _ _ _).2); simpl; [auto |].
           destruct (first_rejection _); simpl; auto.
        -- simpl. intros c Hc.
           destruct (dispatch_writes_calls _ _ _ _ Hc) as (p & k & v & _ & _ & ->).
           exact (client_is_token client Hclient).
      * eexists _, _, _. split; [reflexivity |]. split; [auto |].
        intros c Hc. inversion Hc.
    + rewrite (set_env_rejects req s Hbody) by auto.
      eexists _, _, _. split; [reflexivity |]. split.
      * right. right. right. auto.
      * intros c Hc. inversion Hc.
    + rewrite (set_env_rejects req s Hbody) by auto.
      eexists _, _, _. split; [reflexivity |]. split.
      * right. right. right. auto.
      * intros c Hc. inversion Hc.
Qed.

Lemma not_found_run (s : RemoteState) :
  not_found RemoteState s =
  (Normal (status_json 404 (JObj [("error", JStr "Endpoint not found")])), [], s).
Proof. reflexivity. Qed.

Lemma dispatch_profile (table : list (Method * list Segment * Handler RemoteState))
    (req : Request) :
  Forall (fun route => forall id r, profile proc (route.2 id r)) table ->
  profile proc (dispatch table req).
Proof.
  induction 1 as [| [[m pat] handler] table Hroute _ IH]; simpl.
  - intros s. rewrite not_found_run. eexists _, _, _. split; [reflexivity |]. split.
    + right. right. right. auto.
    + intros c Hc. inversion Hc.
  - destruct (match_route pat (req_path req)) as [[id | error] |]; [| | exact IH].
    + destruct (method_matches m (req_method req)); [apply Hroute | exact IH].
    + intros s. eexists _, _, _. split; [reflexivity |]. split; [auto |].
      intros c Hc. inversion Hc.
Qed.

Lemma routes_profile :
  Forall (fun route => forall id r, profile proc (route.2 id r)) routes.
Proof.
  unfold Gateway.routes.
  repeat first [apply List.Forall_cons | apply List.Forall_nil]; simpl; intros id r.
  - apply health_profile.
  - apply deploy_profile.
  - apply deploy_status_profile.
  - apply deploy_logs_profile.
  - apply promote_profile.
  - apply cancel_profile.
  - apply list_projects_profile.
  - apply set_env_profile.
  - apply add_domain_profile.
  - apply deploy_errors_profile.
Qed.

Lemma app_profile (req : Request) : profile proc (app req).
Proof.
  unfold Gateway.app. destruct (String.eqb (req_path req) "/health").
  - apply dispatch_profile, routes_profile.
  - unfold Gateway.authenticateAPI.
    destruct (no_key (req_api_key req) || differs (req_api_key req) (MCP_API_KEY proc)).
    + intros s. eexists _, _, _. split; [reflexivity |]. split.
      * right. right. right. auto.
      * intros c Hc. inversion Hc.
    + apply dispatch_profile, routes_profile.
Qed.

(** X1. Every request that reaches the guard is answered: whatever the
    request, the state of the platform and its replies, the guard, a route
    handler, the error-handling middleware (for an [:id] that does not
    decode) or the 404 fallback sends an answer, no handler leaves an
    exception uncaught, and the status of the answer is one of 200, 400,
    401, 404, 500 and 503. *)
Theorem app_always_answers (req : Request) (s : RemoteState) :
  exists r calls s',
    app req s = (Normal r, calls, s') /\
    status r ∈ [200; 400; 401; 404; 500; 503].
Proof.
  destruct (app_profile req s) as (r & calls & s' & Hrun & Hstatus & _).
  exists r, calls, s'. split; [exact Hrun |].
  destruct Hstatus as [-> | [-> | [-> | [[-> | [-> | ->]] _]]]]; set_solver.
Qed.

(** X2. An answer in the 4xx range is given before anything is asked of the
    platform: when the status is 400, 401 or 404 the application has made
    no outbound call and the platform is in the state it was in. *)
Theorem client_error_makes_no_call (req : Request) (s s' : RemoteState)
    (r : Response) (calls : list Call) :
  app req s = (Normal r, calls, s') ->
  status r = 400 \/ status r = 401 \/ status r = 404 ->
  calls = [] /\ s' = s.
Proof.
  intros Hrun Hstatus.
  destruct (app_profile req s) as (r0 & calls0 & s0 & Hrun0 & Hshape & _).
  rewrite Hrun in Hrun0. injection Hrun0 as <- <- <-.
  destruct Hshape as [H | [H | [H | [_ Hquiet]]]]; [| | | exact Hquiet];
    destruct Hstatus as [H' | [H' | H']]; congruence.
Qed.

(** X3. The application never calls the platform without the token: every
    outbound call of every handler carries the configured [VERCEL_TOKEN],
    and that token is not empty. *)
Theorem calls_carry_token (req : Request) (s : RemoteState) (c : Call) :
  c ∈ (app req s).1.2 ->
  VERCEL_TOKEN proc = Some (call_bearer c) /\ call_bearer c <> "".
Proof.
  intros Hc.
  destruct (app_profile req s) as (r & calls & s' & Hrun & _ & Htoken).
  rewrite Hrun in Hc. exact (Htoken c Hc).
Qed.

(** *** Guard and routes *)

(** X4. The guard is transparent for a request that bears the secret: on
    every guarded path, a header that is not empty and equals the
    configured secret hands the request to the routes unchanged. *)
Theorem authorized_reaches_route (req : Request) (k : string) :
  req_path req <> "/health" ->
  req_api_key req = Some k -> k <> "" -> MCP_API_KEY proc = Some k ->
  app req = dispatch routes req.
Proof.
  intros Hpath Hkey Hfull Hsecret. rewrite (guarded_path req Hpath).
  exact (guard_passes req _ k Hkey Hfull Hsecret).
Qed.

(** X5. An empty secret opens nothing: when [MCP_API_KEY] is configured as
    the empty string, every request to a guarded path is answered 401,
    whatever its header, the empty header included. *)
Theorem empty_secret_locks_out (req : Request) (s : RemoteState) :
  MCP_API_KEY proc = Some "" ->
  req_path req <> "/health" ->
  app req s = (Normal unauthorized, [], s).
Proof.
  intros Hsecret Hpath. rewrite (guarded_path req Hpath). apply guard_rejects.
  rewrite Hsecret. destruct (req_api_key req) as [k |]; [| reflexivity]. simpl.
  destruct (String.eqb k ""); reflexivity.
Qed.









(** X7. The liveness probe spends the token for anyone: a [GET /health]
    makes the identity call with the configured token whether the request
    bears the secret, a wrong one, or none. *)
Theorem health_calls_for_anyone (req : Request) (client : string) (s : RemoteState) :
  req_method req = GET -> req_path req = "/health" ->
  getVercelClient = Normal client ->
  (app req s).1.2 = [identity_call client].
Proof.
  intros Hm Hp Hclient. rewrite (route_health req Hm Hp).
  unfold Gateway.health. rewrite (one_call (healthy proc) (unhealthy proc)).
  rewrite Hclient. reflexivity.
Qed.

(** *** Promote, cancel, domain *)

(** X8. Promote works in two steps.  It fetches the deployment, and
    answers 500 without patching anything when that call is rejected, when
    its answer has no body, or when the deployment's [projectId] cannot be
    converted to a string.  In every other case it patches the project
    named by [projectId] (converted to a string, whatever it is) with the
    deployment's [framework] as the only field; it answers with the success
    message when the patch resolves and with the error envelope when the
    patch is rejected. *)
Theorem promote_fetches_then_patches (id client : string) (s : RemoteState) :
  getVercelClient = Normal client ->
  (forall message rd,
      (remote s (deployment_call client id)).1 = Rejected message rd ->
      promote id s =
      (Normal (envelope "Failed to promote deployment" (AxiosError message rd)),
       [deployment_call client id], (remote s (deployment_call client id)).2)) /\
  (forall deployment,
      (remote s (deployment_call client id)).1 = Resolved deployment ->
      nullish deployment = true ->
      exists message,
        promote id s =
        (Normal (envelope "Failed to promote deployment" (TypeError message)),
         [deployment_call client id], (remote s (deployment_call client id)).2)) /\
  (forall deployment e,
      (remote s (deployment_call client id)).1 = Resolved deployment ->
      nullish deployment = false ->
      to_string (get_opt deployment "projectId") = Throw e ->
      promote id s =
      (Normal (envelope "Failed to promote deployment" e),
       [deployment_call client id], (remote s (deployment_call client id)).2)) /\
  (forall deployment project,
      (remote s (deployment_call client id)).1 = Resolved deployment ->
      nullish deployment = false ->
      to_string (get_opt deployment "projectId") = Normal project ->
      (promote id s).1.2 =
      [deployment_call client id;
       project_patch client project (get_opt deployment "framework")] /\
      (forall data,
          (remote (remote s (deployment_call client id)).2
                  (project_patch client project (get_opt deployment "framework"))).1 =
          Resolved data ->
          (promote id s).1.1 = Normal (promoted id)) /\
      (forall message rd,
          (remote (remote s (deployment_call client id)).2
                  (project_patch client project (get_opt deployment "framework"))).1 =
          Rejected message rd ->
          (promote id s).1.1 =
          Normal (envelope "Failed to promote deployment" (AxiosError message rd)))).
Proof.
  intros Hclient. split; [| split; [| split]].
  - intros message rd Hreply. rewrite promote_run, Hclient. simpl.
    rewrite Hreply. reflexivity.
  - intros deployment Hreply Hnull. rewrite promote_run, Hclient. simpl.
    rewrite Hreply. simpl. unfold patch_target.
    destruct deployment; try discriminate; simpl; eexists; reflexivity.
  - intros deployment e Hreply Hdef Hproject.
    rewrite promote_run, Hclient. simpl. rewrite Hreply. simpl.
    unfold patch_target. rewrite !(get_defined _ _ Hdef). simpl.
    rewrite Hproject. reflexivity.
  - intros deployment project Hreply Hdef Hproject.
    rewrite promote_run, Hclient. simpl. rewrite Hreply. simpl.
    unfold patch_target. rewrite !(get_defined _ _ Hdef). simpl.
    rewrite Hproject. simpl. split; [reflexivity |]. split.
    + intros data ->. reflexivity.
    + intros message rd ->. reflexivity.
Qed.

(** X9. Cancel makes one call, a [PATCH] of the deployment's cancel path
    with no body, without looking at the deployment first; when the call
    resolves it acknowledges with the id, whatever the platform said, and
    when the call is rejected it answers with the error envelope. *)
Theorem cancel_acknowledges (id client : string) (s : RemoteState) :
  getVercelClient = Normal client ->
  (cancel id s).1.2 = [cancel_call client id] /\
  (forall data,
      (remote s (cancel_call client id)).1 = Resolved data ->
      (cancel id s).1.1 = Normal (cancelled id)) /\
  (forall message rd,
      (remote s (cancel_call client id)).1 = Rejected message rd ->
      (cancel id s).1.1 =
      Normal (envelope "Failed to cancel deployment" (AxiosError message rd))).
Proof.
  intros Hclient. unfold Gateway.cancel, fail.
  rewrite (one_call (fun _ => Normal (cancelled id))
             (envelope "Failed to cancel deployment")).
  rewrite Hclient. simpl. fold (cancel_call client id).
  split; [reflexivity |]. split.
  - intros data ->. reflexivity.
  - intros message rd ->. reflexivity.
Qed.

(** X10. The domain handler rejects a falsy [domain] with 400 and no call.
    A truthy one is sent as it stands, in one [POST] to the domains of the
    project named in the path, and echoed in the answer when the call
    resolves. *)
Theorem domain_is_sent_as_given (id : string) (req : Request) (s : RemoteState) :
  nullish (req_body req) = false ->
  (truthy (get_opt (req_body req) "domain") = false ->
   add_domain id req s = (Normal (bad_request "Domain is required"), [], s)) /\
  (forall client,
      truthy (get_opt (req_body req) "domain") = true ->
      getVercelClient = Normal client ->
      (add_domain id req s).1.2 =
      [domain_call client id (get_opt (req_body req) "domain")] /\
      (forall data,
          (remote s (domain_call client id (get_opt (req_body req) "domain"))).1 =
          Resolved data ->
          (add_domain id req s).1.1 =
          Normal (domain_added (get_opt (req_body req) "domain")))).
Proof.
  intros Hbody. rewrite add_domain_run, Hbody. split.
  - intros ->. reflexivity.
  - intros client -> ->. simpl. split; [reflexivity |]. intros data ->. reflexivity.
Qed.

(** *** Logs and projects *)

Lemma defined_spec (v : JValue) : defined v = true -> nullish v = false.
Proof. unfold defined. apply negb_true_iff. Qed.

Lemma log_entries (events : list JValue) :
  forallb defined events = true -> cmap log_entry events = Normal (map logged events).
Proof.
  induction events as [| ev events IH]; simpl; [reflexivity |].
  intros [Hev%defined_spec Hrest]%andb_true_iff.
  rewrite (IH Hrest). unfold log_entry. rewrite !(get_defined _ _ Hev). reflexivity.
Qed.

(** X11. The logs handler maps the stream one to one: for an array of
    events (none [null]) it answers 200 with one log line per event, in the
    order of the stream, each holding the event's [created], [type] and
    [payload] as they came. *)
Theorem logs_keep_the_stream (id client : string) (events : list JValue) (s : RemoteState) :
  getVercelClient = Normal client ->
  (remote s (events_call client id)).1 = Resolved (JArr events) ->
  forallb defined events = true ->
  deploy_logs id s =
  (Normal (json (JObj [("success", JBool true); ("logs", JArr (map logged events))])),
   [events_call client id], (remote s (events_call client id)).2) /\
  length (map logged events) = length events.
Proof.
  intros Hclient Hreply Hevents. split; [| apply length_map].
  unfold Gateway.deploy_logs, fail. rewrite (one_call logs_of), Hclient. simpl.
  fold (events_call client id). rewrite Hreply. simpl.
  unfold logs_of. simpl. rewrite (log_entries events Hevents). reflexivity.
Qed.

Lemma latest_deployment_spec (d : JValue) :
  is_listed_deployment d = true -> latest_deployment d = Normal (listed_deployment d).
Proof.
  intros [Hd%defined_spec Hurl]%andb_true_iff.
  unfold latest_deployment, listed_deployment. rewrite !(get_defined _ _ Hd). simpl.
  destruct (get_opt d "url"); try discriminate. reflexivity.
Qed.

Lemma latest_deployments_spec (ds : list JValue) :
  forallb is_listed_deployment ds = true ->
  cmap latest_deployment ds = Normal (map listed_deployment ds).
Proof.
  induction ds as [| d ds IH]; simpl; [reflexivity |].
  intros [Hd Hrest]%andb_true_iff.
  rewrite (latest_deployment_spec d Hd). simpl. rewrite (IH Hrest). reflexivity.
Qed.

Lemma project_entry_spec (p : JValue) :
  is_project p = true -> project_entry p = Normal (listed_project p).
Proof.
  intros [Hp%defined_spec Hlatest]%andb_true_iff.
  unfold project_entry, listed_project. rewrite !(get_defined _ _ Hp). simpl.
  destruct (get_opt p "latestDeployments") as [| | | | | ds |]; try discriminate;
    try reflexivity.
  simpl. rewrite (latest_deployments_spec ds Hlatest). reflexivity.
Qed.

Lemma project_entries (items : list JValue) :
  forallb is_project items = true ->
  cmap project_entry items = Normal (map listed_project items).
Proof.
  induction items as [| p items IH]; simpl; [reflexivity |].
  intros [Hp Hrest]%andb_true_iff.
  rewrite (project_entry_spec p Hp). simpl. rewrite (IH Hrest). reflexivity.
Qed.

(** X12. The projects handler lists what the platform listed: for an array
    of projects it answers 200 with one entry per project, in order.  A
    project without [latestDeployments] (absent or [null]) is listed
    without them, not with an empty list; where they are present each is
    reduced to [id], [url] with the scheme in front, [ready] and
    [createdAt]. *)
Theorem projects_are_listed_in_order (client : string) (data : JValue)
    (items : list JValue) (s : RemoteState) :
  getVercelClient = Normal client ->
  (remote s (projects_call client)).1 = Resolved data ->
  nullish data = false ->
  get_opt data "projects" = JArr items ->
  forallb is_project items = true ->
  list_projects s =
  (Normal (json (JObj [("success", JBool true);
                       ("projects", JArr (map listed_project items))])),
   [projects_call client], (remote s (projects_call client)).2) /\
  (forall p, p ∈ items -> nullish (get_opt p "latestDeployments") = true ->
     get_opt (listed_project p) "latestDeployments" = JUndefined).
Proof.
  intros Hclient Hreply Hdata Hitems Hall. split.
  - unfold Gateway.list_projects, fail. rewrite (one_call projects_of), Hclient. simpl.
    fold (projects_call client). rewrite Hreply. simpl.
    unfold projects_of. rewrite (get_defined _ _ Hdata), Hitems. simpl.
    rewrite (project_entries items Hall). reflexivity.
  - intros p _ Hnone. unfold listed_project. simpl.
    destruct (get_opt p "latestDeployments"); try discriminate; reflexivity.
Qed.

(** X13. A missing [url] goes unnoticed: when the platform's answer has no
    [url], the deploy and status handlers still answer 200, and the URL
    they report is ["https://undefined"]. *)
Theorem missing_url_is_reported_as_undefined (data : JValue) :
  nullish data = false ->
  get_opt data "url" = JUndefined ->
  (exists r, deployed data = Normal r /\ status r = 200 /\
             deployment_url r = JStr "https://undefined") /\
  (exists r, status_of data = Normal r /\ status r = 200 /\
             deployment_url r = JStr "https://undefined").
Proof.
  intros Hdata Hurl. split.
  - unfold deployed. rewrite !(get_defined _ _ Hdata), Hurl. simpl.
    eexists. repeat split.
  - unfold status_of. rewrite !(get_defined _ _ Hdata), Hurl. simpl.
    eexists. repeat split.
Qed.

(** X14. The event stream has to be an array: for any other answer of the
    platform, an object, a string or nothing at all, the logs handler and
    the errors handler answer 500 with the details of a [TypeError]. *)
Theorem stream_must_be_an_array (id client : string) (data : JValue) (s : RemoteState) :
  getVercelClient = Normal client ->
  (remote s (events_call client id)).1 = Resolved data ->
  (forall items, data <> JArr items) ->
  (exists message,
      deploy_logs id s =
      (Normal (envelope "Failed to get deployment logs" (TypeError message)),
       [events_call client id], (remote s (events_call client id)).2)) /\
  (exists message,
      deploy_errors id s =
      (Normal (envelope "Failed to parse build errors" (TypeError message)),
       [events_call client id], (remote s (events_call client id)).2)).
Proof.
  intros Hclient Hreply Hnot. split.
  - unfold Gateway.deploy_logs, fail. rewrite (one_call logs_of), Hclient. simpl.
    fold (events_call client id). rewrite Hreply. simpl. unfold logs_of.
    destruct data as [| | | | | items |]; simpl; try (eexists; reflexivity).
    destruct (Hnot items eq_refl).
  - unfold Gateway.deploy_errors, fail. rewrite (one_call errors_of), Hclient. simpl.
    fold (events_call client id). rewrite Hreply. simpl. unfold errors_of.
    destruct data as [| | | | | items |]; simpl; try (eexists; reflexivity).
    destruct (Hnot items eq_refl).
Qed.

(** *** More on triggering a deployment *)

Lemma set_property_elsewhere (o : Obj) (k k' : string) (v : JValue) :
  k' <> k -> own_props (set_property o k' v) !! k = own_props o !! k.
Proof.
  intros Hne. unfold set_property.
  destruct (String.eqb k' "__proto__" && reaches_proto_accessor o).
  - destruct v; reflexivity.
  - simpl. apply lookup_insert_ne. exact Hne.
Qed.

Lemma reduce_untouched (k : string) (items : list JValue) (acc acc' : Obj) :
  (forall env, env ∈ items -> key_of env <> Normal k) ->
  reduce env_step items acc = Normal acc' ->
  own_props acc' !! k = own_props acc !! k.
Proof.
  revert acc. induction items as [| env items IH]; intros acc Hnone; simpl.
  - intros [= <-]. reflexivity.
  - destruct (env_step acc env) as [acc1 |] eqn:Hstep; simpl; [| discriminate].
    intros Hrest. destruct (env_step_spec _ _ _ Hstep) as (k' & Hkey & ->).
    rewrite (IH _ (fun e He => Hnone e (list_elem_of_further _ _ _ He)) Hrest).
    apply set_property_elsewhere.
    intros ->. apply (Hnone env); [apply list_elem_of_here | exact Hkey].
Qed.

Lemma reduce_entries (items : list JValue) (acc : Obj) :
  forallb is_env_entry items = true ->
  exists acc', reduce env_step items acc = Normal acc'.
Proof.
  revert acc. induction items as [| env items IH]; intros acc; simpl.
  - intros _. exists acc. reflexivity.
  - intros [Henv Hrest]%andb_true_iff.
    unfold is_env_entry in Henv. destruct env; try discriminate.
    unfold env_step. simpl get.
    change (default JUndefined (own fields "key")) with (get_opt (JObj fields) "key").
    destruct (get_opt (JObj fields) "key"); try discriminate. simpl.
    apply IH. exact Hrest.
Qed.

(** X15. What the fold of [envVariables] transmits, for entries that are
    objects with a string [key]: a key that no entry names is absent from
    the mapping, and a key other than ["__proto__"] holds the value of the
    last entry that names it. *)
Theorem env_mapping_lookup (name gitSource framework buildCommand : JValue)
    (items : list JValue) :
  truthy gitSource = true ->
  forallb is_env_entry items = true ->
  exists d mapping,
    deploymentData name gitSource framework buildCommand (JArr items) = Normal d /\
    dd_env d = Some mapping /\
    (forall k, (forall env, env ∈ items -> key_of env <> Normal k) ->
               mapping !! k = None) /\
    (forall before env after k,
        items = before ++ env :: after ->
        k <> "__proto__" ->
        key_of env = Normal k ->
        (forall later, later ∈ after -> key_of later <> Normal k) ->
        mapping !! k = Some (get_opt env "value")).
Proof.
  intros Hsrc Hitems.
  destruct (reduce_entries items empty_object Hitems) as [acc Hacc].
  exists {| dd_name := name;
            dd_gitSource := {| gs_type := or_else (get_opt gitSource "type") (JStr "github");
                               gs_repo := get_opt gitSource "repo";
                               gs_ref := or_else (get_opt gitSource "ref") (JStr "main") |};
            dd_target := "preview";
            dd_framework := if truthy framework then Some framework else None;
            dd_buildCommand := if truthy buildCommand then Some buildCommand else None;
            dd_env := Some (own_props acc) |}, (own_props acc).
  split; [| split; [reflexivity | split]].
  - unfold deploymentData. rewrite !(get_defined _ _ (truthy_defined _ Hsrc)). simpl.
    rewrite Hacc. reflexivity.
  - intros k Hnone. rewrite (reduce_untouched k items _ _ Hnone Hacc). apply lookup_empty.
  - intros before env after k -> Hk Hkey Hlast.
    exact (env_last_write_wins k before after env acc Hk Hkey Hlast Hacc).
Qed.

Lemma reduce_stops_at_nullish (items : list JValue) (acc : Obj) :
  (exists env, env ∈ items /\ nullish env = true) ->
  exists e, reduce env_step items acc = Throw e.
Proof.
  revert acc. induction items as [| env items IH]; intros acc (bad & Hin & Hbad).
  - inversion Hin.
  - simpl. destruct (env_step acc env) as [acc1 | e] eqn:Hstep; simpl; [| eauto].
    apply IH. exists bad. split; [| exact Hbad].
    apply elem_of_cons in Hin as [Heq | Hin]; [| exact Hin].
    subst bad. unfold env_step in Hstep. destruct env; simpl in *; discriminate.
Qed.

(** X16. One malformed entry stops the deployment: when [envVariables] is
    an array that holds a [null], a request that passes validation is
    answered 500 and no call is made to the platform. *)
Theorem null_entry_aborts_deploy (req : Request) (items : list JValue) (s : RemoteState) :
  nullish (req_body req) = false ->
  truthy (get_opt (req_body req) "name") = true ->
  truthy (get_opt (req_body req) "gitSource") = true ->
  truthy (get_opt (get_opt (req_body req) "gitSource") "repo") = true ->
  get_opt (req_body req) "envVariables" = JArr items ->
  (exists env, env ∈ items /\ nullish env = true) ->
  exists e,
    deploy req s = (Normal (envelope "Failed to trigger deployment" e), [], s) /\
    status (envelope "Failed to trigger deployment" e) = 500.
Proof.
  intros Hbody Hname Hsrc Hrepo Hvars Hbad.
  rewrite (deploy_valid req s Hbody Hname Hsrc Hrepo).
  destruct getVercelClient as [client | e]; [| eexists; split; reflexivity].
  unfold deploymentData. rewrite !(get_defined _ _ (truthy_defined _ Hsrc)), Hvars. simpl.
  destruct (reduce_stops_at_nullish items empty_object Hbad) as [e ->]. simpl.
  eexists. split; reflexivity.
Qed.

(** X17. A deployment can be triggered and reported as failed: when the
    platform accepts the call and its answer has no body to read, the
    handler has made the call and answers 500. *)
Theorem deploy_answer_lost (req : Request) (client : string) (d : DeploymentData)
    (data : JValue) (s : RemoteState) :
  nullish (req_body req) = false ->
  truthy (get_opt (req_body req) "name") = true ->
  truthy (get_opt (req_body req) "gitSource") = true ->
  truthy (get_opt (get_opt (req_body req) "gitSource") "repo") = true ->
  getVercelClient = Normal client ->
  deploymentData (get_opt (req_body req) "name")
                 (get_opt (req_body req) "gitSource")
                 (get_opt (req_body req) "framework")
                 (get_opt (req_body req) "buildCommand")
                 (get_opt (req_body req) "envVariables") = Normal d ->
  (remote s (deploy_call client d)).1 = Resolved data ->
  nullish data = true ->
  exists message,
    deploy req s =
    (Normal (envelope "Failed to trigger deployment" (TypeError message)),
     [deploy_call client d], (remote s (deploy_call client d)).2).
Proof.
  intros Hbody Hname Hsrc Hrepo Hclient Hd Hreply Hdata.
  rewrite (deploy_valid req s Hbody Hname Hsrc Hrepo), Hclient, Hd, Hreply. simpl.
  unfold deployed. destruct data; try discriminate; simpl; eexists; reflexivity.
Qed.

(** *** Errors from the platform *)

(** X18. How a rejected call is reported, on the status handler: the answer
    is 500 with the handler's summary, and [details] is the [error.message]
    of the platform's error body, as it stands, whenever that is truthy,
    and the message of the client's own error whenever it is not. *)
Theorem rejection_details (id client message : string) (rd : JValue) (s : RemoteState) :
  getVercelClient = Normal client ->
  (remote s (deployment_call client id)).1 = Rejected message rd ->
  exists details,
    deploy_status id s =
    (Normal {| status := 500;
               body := JObj [("error", JStr "Failed to get deployment status");
                             ("details", details)] |},
     [deployment_call client id], (remote s (deployment_call client id)).2) /\
    (truthy (get_opt (get_opt rd "error") "message") = true ->
     details = get_opt (get_opt rd "error") "message") /\
    (truthy (get_opt (get_opt rd "error") "message") = false -> details = JStr message).
Proof.
  intros Hclient Hreply. exists (details_of (AxiosError message rd)). split.
  - unfold Gateway.deploy_status, fail. rewrite (one_call status_of), Hclient. simpl.
    fold (deployment_call client id). rewrite Hreply. reflexivity.
  - simpl. unfold or_else. split; intros ->; reflexivity.
Qed.

(** *** More on environment variables *)

(** X19. The environment handler writes nothing but what [env] holds: each
    of its calls is a [POST] to the [env] path of the project, for one of
    the entries of [env], with type ["encrypted"] and the two targets
    [production] and [preview]. *)
Theorem env_writes_come_from_env (req : Request) (s : RemoteState) (c : Call) :
  c ∈ (set_env req s).1.2 ->
  exists project key value,
    to_string (get_opt (req_body req) "projectId") = Normal project /\
    (key, value) ∈ entries (get_opt (req_body req) "env") /\
    call_method c = POST /\
    call_url c = "/v9/projects/" +:+ project +:+ "/env" /\
    call_data c = EnvData {| ew_key := key; ew_value := value;
                             ew_type := "encrypted";
                             ew_target := ["production"; "preview"] |}.
Proof.
  destruct (nullish (req_body req)) eqn:Hbody.
  { rewrite (set_env_without_body req s Hbody). intros Hc. inversion Hc. }
  destruct (truthy (get_opt (req_body req) "projectId")) eqn:Hpid;
    [destruct (truthy (get_opt (req_body req) "env")) eqn:Henv |].
  - rewrite (set_env_valid req s Hbody Hpid Henv).
    destruct getVercelClient as [client | e]; [| intros Hc; inversion Hc].
    simpl. intros Hc.
    destruct (dispatch_writes_calls _ _ _ _ Hc) as (p & k & v & Hp & Hin & ->).
    exists p, k, v. repeat split; assumption.
  - rewrite (set_env_rejects req s Hbody) by auto. intros Hc. inversion Hc.
  - rewrite (set_env_rejects req s Hbody) by auto. intros Hc. inversion Hc.
Qed.

(** X20. Without a token nothing is ever asked of the platform: when
    [VERCEL_TOKEN] is absent or empty, no request, to any path, leads to an
    outbound call. *)
Theorem no_token_no_call (req : Request) (s : RemoteState) :
  VERCEL_TOKEN proc = None \/ VERCEL_TOKEN proc = Some "" ->
  (app req s).1.2 = [].
Proof.
  intros Hnone.
  destruct (app_profile req s) as (r & calls & s' & Hrun & _ & Hcalls).
  rewrite Hrun. simpl. destruct calls as [| c calls]; [reflexivity |].
  destruct (Hcalls c (list_elem_of_here _ _)) as [Htoken Hfull].
  destruct Hnone as [H | H]; rewrite H in Htoken; [discriminate |].
  injection Htoken as Heq. destruct (Hfull (eq_sym Heq)).
Qed.

(** X21. An [env] without entries is accepted as it is: when [env] is
    truthy and has no own enumerable property (an empty object, an empty
    array, a number, [true]), the handler makes no call and answers with
    the success message. *)
Theorem env_without_entries_succeeds (req : Request) (client : string) (s : RemoteState) :
  nullish (req_body req) = false ->
  truthy (get_opt (req_body req) "projectId") = true ->
  truthy (get_opt (req_body req) "env") = true ->
  entries (get_opt (req_body req) "env") = [] ->
  getVercelClient = Normal client ->
  set_env req s = (Normal env_set, [], s).
Proof.
  intros Hbody Hpid Henv Hnone Hclient.
  rewrite (set_env_valid req s Hbody Hpid Henv), Hclient, Hnone. reflexivity.
Qed.

(** X22. The status handler tolerates a deployment without creator and
    commit metadata: when [creator] and [meta] are absent or [null], it
    answers 200 and reports [creator] and the three commit fields as
    [undefined]. *)
Theorem status_without_metadata (id client host : string) (deployment : JValue)
    (s : RemoteState) :
  getVercelClient = Normal client ->
  (remote s (deployment_call client id)).1 = Resolved deployment ->
  nullish deployment = false ->
  get_opt deployment "url" = JStr host ->
  nullish (get_opt deployment "creator") = true ->
  nullish (get_opt deployment "meta") = true ->
  exists r,
    (deploy_status id s).1.1 = Normal r /\ status r = 200 /\
    get_opt (get_opt (body r) "deployment") "creator" = JUndefined /\
    get_opt (get_opt (body r) "deployment") "meta" =
    JObj [("githubCommitRef", JUndefined);
          ("githubCommitMessage", JUndefined);
          ("githubCommitAuthorName", JUndefined)].
Proof.
  intros Hclient Hreply Hdef Hurl Hcreator Hmeta.
  unfold Gateway.deploy_status, fail. rewrite (one_call status_of), Hclient. simpl.
  fold (deployment_call client id). rewrite Hreply. simpl.
  unfold status_of. rewrite !(get_defined _ _ Hdef), Hurl. simpl.
  eexists. split; [reflexivity |]. split; [reflexivity |]. simpl.
  destruct (get_opt deployment "creator"); try discriminate;
    destruct (get_opt deployment "meta"); try discriminate; split; reflexivity.
Qed.

End Properties.

(** ** Concrete runs *)

(** The path [/health/metrics] extends the exempt path and is guarded. *)
Lemma unauthorized_without_secret_witness :
  Scripted.run {| req_method := GET; req_path := "/health/metrics";
                  req_api_key := Some "guess"; req_body := JUndefined |} [] =
  (Normal unauthorized, [], []).
Proof.
  refine (proj1 (unauthorized_without_secret (list Reply) Scripted.remote []
                   Scripted.proc _ [] _ _)).
  - simpl. discriminate.
  - simpl. intros k [= <-]. discriminate.
Defined.

Lemma guard_fails_closed_witness :
  Scripted.run {| req_method := POST; req_path := "/api/deploy";
                  req_api_key := None; req_body := JObj [] |} [] =
  (Normal unauthorized, [], []).
Proof.
  refine (proj1 (guard_fails_closed (list Reply) Scripted.remote []
                   Scripted.proc _ [] _ _)).
  - simpl. discriminate.
  - left. reflexivity.
Defined.

Lemma deploy_payload_defaults_witness :
  (deploy (list Reply) Scripted.remote Scripted.proc Scripted.deploy_request
          [Scripted.deployment_created]).1.2 =
  [deploy_call "tok" Scripted.deploy_payload].
Proof.
  refine (proj1 (deploy_payload_defaults (list Reply) Scripted.remote Scripted.proc
                   Scripted.deploy_request [Scripted.deployment_created] _ _ _ _)
                "tok" Scripted.deploy_payload _ _); reflexivity.
Defined.

Lemma deploy_validation_rejects_witness :
  exists msg,
    (msg = "Project name is required" \/ msg = "Git source is required") /\
    deploy (list Reply) Scripted.remote Scripted.proc
      (Scripted.request POST "/api/deploy"
         (JObj [("gitSource", JObj [("repo", JStr "org/repo")])])) [] =
    (Normal (bad_request msg), [], []) /\
    status (bad_request msg) = 400.
Proof.
  refine (deploy_validation_rejects (list Reply) Scripted.remote Scripted.proc _ [] _ _).
  - reflexivity.
  - left. left. reflexivity.
Defined.

Lemma env_partial_failure_witness :
  (exists message rd,
      Rejected message rd ∈
        (serve (list Reply) Scripted.remote
           (arrival [] (env_writes "tok" "prj_1" Scripted.env_entries))
           Scripted.second_write_fails).1 /\
      set_env (list Reply) Scripted.remote [] Scripted.proc Scripted.env_request
        Scripted.second_write_fails =
      (Normal {| status := 500;
                 body := JObj [("error", JStr "Failed to set environment variables");
                               ("details", details_of (AxiosError message rd))] |},
       env_writes "tok" "prj_1" Scripted.env_entries,
       (serve (list Reply) Scripted.remote
          (arrival [] (env_writes "tok" "prj_1" Scripted.env_entries))
          Scripted.second_write_fails).2)) /\
  (forall script,
      (set_env (list Reply) Scripted.remote [] Scripted.proc Scripted.env_request script).1.2 =
      env_writes "tok" "prj_1" Scripted.env_entries).
Proof.
  refine (env_partial_failure (list Reply) Scripted.remote [] Scripted.proc
            Scripted.env_request "tok" "prj_1" Scripted.second_write_fails
            _ _ _ _ _ _); try reflexivity.
  exists "Request failed with status code 400",
         (JObj [("error", JObj [("message", JStr "Invalid value")])]).
  simpl. apply list_elem_of_further, list_elem_of_here.
Defined.

(** The run of the specification's example: two entries, the second write
    refused; both writes were issued and the answer is the envelope. *)
Example env_second_write_fails :
  Scripted.run Scripted.env_request Scripted.second_write_fails =
  (Normal {| status := 500;
             body := JObj [("error", JStr "Failed to set environment variables");
                           ("details", JStr "Invalid value")] |},
   [env_write "tok" "prj_1" "API_KEY" (JStr "k");
    env_write "tok" "prj_1" "DATABASE_URL" (JStr "postgres://db")],
   []).
Proof. reflexivity. Qed.

Lemma errors_extraction_witness :
  exists kept has,
    selects reports_error Scripted.sample_events kept /\
    (has = true <-> map reported kept <> []) /\
    deploy_errors (list Reply) Scripted.remote Scripted.proc "dpl_1"
      [Resolved (JArr Scripted.sample_events)] =
    (Normal (json (JObj [("success", JBool true);
                         ("errors", JArr (map reported kept));
                         ("hasErrors", JBool has)])),
     [events_call "tok" "dpl_1"], []).
Proof.
  refine (errors_extraction (list Reply) Scripted.remote Scripted.proc "dpl_1" "tok"
            Scripted.sample_events [Resolved (JArr Scripted.sample_events)] _ _ _);
    reflexivity.
Defined.

Lemma url_has_one_scheme_witness :
  scheme_count (with_scheme "app.vercel.app") = 1.
Proof.
  refine (proj2 (proj2 (proj2 (url_has_one_scheme "app.vercel.app" _)))).
  reflexivity.
Defined.

Lemma empty_env_accepted_witness :
  set_env (list Reply) Scripted.remote [] Scripted.proc Scripted.empty_env_request [] =
  (Normal env_set, [], []).
Proof.
  refine (proj1 (empty_env_accepted (list Reply) Scripted.remote [] Scripted.proc
                   Scripted.empty_env_request "tok" [] _ _ _ _)); reflexivity.
Defined.


(** The example of the specification: of a [stdout] line and a [stderr]
    line, the second alone is reported. *)
Example errors_of_sample :
  Scripted.run (Scripted.request GET "/api/deploy/dpl_1/errors" JUndefined)
               [Resolved (JArr Scripted.sample_events)] =
  (Normal (json (JObj [("success", JBool true);
                       ("errors", JArr [JObj [("timestamp", Scripted.number "1700000000001");
                                              ("message", JStr "boom")]]);
                       ("hasErrors", JBool true)])),
   [events_call "tok" "dpl_1"], []).
Proof. reflexivity. Qed.

(** C5, as it was stated, fails on a blank line of the error stream:
    [payload.text] is present, and empty, and the entry carries
    [payload.message] in its place. *)
Lemma blank_text_counterexample :
  is_event Scripted.blank_stderr_line = true /\
  present (get_opt Scripted.blank_stderr_line "payload") "text" = Some (JStr "") /\
  claimed_message Scripted.blank_stderr_line = JStr "" /\
  Scripted.run (Scripted.request GET "/api/deploy/dpl_1/errors" JUndefined)
               [Resolved (JArr [Scripted.blank_stderr_line])] =
  (Normal (json (JObj [("success", JBool true);
                       ("errors", JArr [JObj [("timestamp", Scripted.number "1700000000002");
                                              ("message", JStr "exit 1")]]);
                       ("hasErrors", JBool true)])),
   [events_call "tok" "dpl_1"], []) /\
  JStr "exit 1" <> claimed_message Scripted.blank_stderr_line.
Proof. repeat (split; [reflexivity |]). discriminate. Qed.


(** C7 (defect). Entries keyed [__proto__] are lost in the fold: the
    assignment [acc[env.key] = env.value] on an object that started as [{}]
    reaches the prototype accessor and creates no own property.  For two
    entries with that key the mapping transmitted is empty, so the value of
    the later entry is not transmitted. *)
Theorem env_proto_key_dropped :
  exists d,
    (Scripted.run Scripted.proto_request [Scripted.deployment_created]).1.2 =
    [deploy_call "tok" d] /\
    dd_env d = Some ∅ /\
    dd_env d <> Some {[ "__proto__" := JStr "second" ]}.
Proof.
  eexists. split; [reflexivity |]. split; [reflexivity |].
  change (Some (∅ : gmap string JValue) <> Some {[ "__proto__" := JStr "second" ]}).
  intros H. apply (f_equal (fun o => o ≫= (.!! "__proto__"))) in H.
  simpl in H. rewrite lookup_empty, lookup_singleton_eq in H. discriminate.
Qed.

(** Express routes [/health/] to the liveness probe, yet the path is not
    the exempt one: without the secret the request stops at the guard, and
    with it the probe runs. *)
Example health_with_slash_is_guarded :
  Scripted.run {| req_method := GET; req_path := "/health/";
                  req_api_key := None; req_body := JUndefined |}
               [Resolved (JObj [("user", JObj [("username", JStr "bob")])])] =
  (Normal unauthorized, [],
   [Resolved (JObj [("user", JObj [("username", JStr "bob")])])]) /\
  Scripted.run (Scripted.request GET "/health/" JUndefined)
               [Resolved (JObj [("user", JObj [("username", JStr "bob")])])] =
  (Normal (healthy_answer Scripted.proc (JStr "bob")), [identity_call "tok"], []).
Proof. split; reflexivity. Qed.


(** *** Runs of the other handlers *)

Lemma client_error_makes_no_call_witness :
  (@nil Call) = [] /\ [Scripted.deployment_created] = [Scripted.deployment_created].
Proof.
  refine (client_error_makes_no_call (list Reply) Scripted.remote [] Scripted.proc
            (Scripted.request POST "/api/deploy" (JObj []))
            [Scripted.deployment_created] [Scripted.deployment_created]
            (bad_request "Project name is required") [] _ _).
  - reflexivity.
  - left. reflexivity.
Defined.

Lemma calls_carry_token_witness :
  VERCEL_TOKEN Scripted.proc =
  Some (call_bearer (deploy_call "tok" Scripted.deploy_payload)) /\
  call_bearer (deploy_call "tok" Scripted.deploy_payload) <> "".
Proof.
  refine (calls_carry_token (list Reply) Scripted.remote [] Scripted.proc
            Scripted.deploy_request [Scripted.deployment_created]
            (deploy_call "tok" Scripted.deploy_payload) _).
  apply list_elem_of_here.
Defined.

Lemma authorized_reaches_route_witness :
  app (list Reply) Scripted.remote [] Scripted.proc Scripted.deploy_request =
  dispatch (list Reply) Scripted.proc
           (routes (list Reply) Scripted.remote [] Scripted.proc)
           Scripted.deploy_request.
Proof.
  refine (authorized_reaches_route (list Reply) Scripted.remote [] Scripted.proc
            Scripted.deploy_request "s3cret" _ _ _ _);
    try reflexivity; discriminate.
Defined.

Lemma empty_secret_locks_out_witness :
  app (list Reply) Scripted.remote [] Scripted.locked_proc
    {| req_method := GET; req_path := "/api/projects";
       req_api_key := Some ""; req_body := JObj [] |} [] =
  (Normal unauthorized, [], []).
Proof.
  refine (empty_secret_locks_out (list Reply) Scripted.remote [] Scripted.locked_proc
            _ [] _ _).
  - reflexivity.
  - simpl. discriminate.
Defined.


Lemma health_calls_for_anyone_witness :
  (Scripted.run {| req_method := GET; req_path := "/health";
                   req_api_key := None; req_body := JUndefined |} []).1.2 =
  [identity_call "tok"].
Proof.
  refine (health_calls_for_anyone (list Reply) Scripted.remote [] Scripted.proc
            _ "tok" [] _ _ _); reflexivity.
Defined.

Lemma promote_fetches_then_patches_witness :
  (promote (list Reply) Scripted.remote Scripted.proc "dpl_1"
     [Resolved Scripted.deployment_found; Resolved (JObj [])]).1.2 =
  [deployment_call "tok" "dpl_1"; project_patch "tok" "prj_1" (JStr "nextjs")].
Proof.
  refine (proj1 (proj2 (proj2 (proj2
            (promote_fetches_then_patches (list Reply) Scripted.remote
               Scripted.proc "dpl_1" "tok"
               [Resolved Scripted.deployment_found; Resolved (JObj [])] _)))
            Scripted.deployment_found "prj_1" _ _ _)); reflexivity.
Defined.

Lemma cancel_acknowledges_witness :
  (cancel (list Reply) Scripted.remote Scripted.proc "dpl_1" [Resolved JNull]).1.2 =
  [cancel_call "tok" "dpl_1"].
Proof.
  refine (proj1 (cancel_acknowledges (list Reply) Scripted.remote Scripted.proc
                   "dpl_1" "tok" [Resolved JNull] _)).
  reflexivity.
Defined.

Lemma domain_is_sent_as_given_witness :
  (add_domain (list Reply) Scripted.remote Scripted.proc "prj_1"
     Scripted.domain_request [Resolved (JObj [])]).1.2 =
  [domain_call "tok" "prj_1" (JStr "example.com")].
Proof.
  refine (proj1 (proj2 (domain_is_sent_as_given (list Reply) Scripted.remote Scripted.proc
                          "prj_1" Scripted.domain_request [Resolved (JObj [])] _)
                   "tok" _ _)); reflexivity.
Defined.

Lemma logs_keep_the_stream_witness :
  deploy_logs (list Reply) Scripted.remote Scripted.proc "dpl_1"
    [Resolved (JArr Scripted.sample_events)] =
  (Normal (json (JObj [("success", JBool true);
                       ("logs", JArr (map logged Scripted.sample_events))])),
   [events_call "tok" "dpl_1"], []) /\
  length (map logged Scripted.sample_events) = length Scripted.sample_events.
Proof.
  refine (logs_keep_the_stream (list Reply) Scripted.remote Scripted.proc "dpl_1" "tok"
            Scripted.sample_events [Resolved (JArr Scripted.sample_events)] _ _ _);
    reflexivity.
Defined.

Lemma projects_are_listed_in_order_witness :
  list_projects (list Reply) Scripted.remote Scripted.proc
    [Resolved (JObj [("projects", JArr Scripted.project_listing)])] =
  (Normal (json (JObj [("success", JBool true);
                       ("projects", JArr (map listed_project Scripted.project_listing))])),
   [projects_call "tok"], []).
Proof.
  refine (proj1 (projects_are_listed_in_order (list Reply) Scripted.remote Scripted.proc
                   "tok" (JObj [("projects", JArr Scripted.project_listing)])
                   Scripted.project_listing
                   [Resolved (JObj [("projects", JArr Scripted.project_listing)])]
                   _ _ _ _ _)); reflexivity.
Defined.

Lemma missing_url_is_reported_as_undefined_witness :
  exists r, deployed (JObj [("id", JStr "dpl_1")]) = Normal r /\ status r = 200 /\
            deployment_url r = JStr "https://undefined".
Proof.
  refine (proj1 (missing_url_is_reported_as_undefined (JObj [("id", JStr "dpl_1")]) _ _));
    reflexivity.
Defined.

Lemma stream_must_be_an_array_witness :
  exists message,
    deploy_logs (list Reply) Scripted.remote Scripted.proc "dpl_1"
      [Resolved (JObj [("events", JArr [])])] =
    (Normal (envelope "Failed to get deployment logs" (TypeError message)),
     [events_call "tok" "dpl_1"], []).
Proof.
  refine (proj1 (stream_must_be_an_array (list Reply) Scripted.remote Scripted.proc
                   "dpl_1" "tok" (JObj [("events", JArr [])])
                   [Resolved (JObj [("events", JArr [])])] _ _ _)).
  - reflexivity.
  - reflexivity.
  - discriminate.
Defined.

Lemma env_mapping_lookup_witness :
  exists d mapping,
    deploymentData (JStr "app") (JObj [("repo", JStr "org/repo")]) JUndefined JUndefined
      (JArr Scripted.env_variables) = Normal d /\
    dd_env d = Some mapping /\
    (forall k, (forall env, env ∈ Scripted.env_variables -> key_of env <> Normal k) ->
               mapping !! k = None) /\
    (forall before env after k,
        Scripted.env_variables = before ++ env :: after ->
        k <> "__proto__" ->
        key_of env = Normal k ->
        (forall later, later ∈ after -> key_of later <> Normal k) ->
        mapping !! k = Some (get_opt env "value")).
Proof.
  refine (env_mapping_lookup (JStr "app") (JObj [("repo", JStr "org/repo")])
            JUndefined JUndefined Scripted.env_variables _ _); reflexivity.
Defined.

Lemma null_entry_aborts_deploy_witness :
  exists e,
    deploy (list Reply) Scripted.remote Scripted.proc Scripted.null_entry_request
      [Scripted.deployment_created] =
    (Normal (envelope "Failed to trigger deployment" e), [],
     [Scripted.deployment_created]) /\
    status (envelope "Failed to trigger deployment" e) = 500.
Proof.
  refine (null_entry_aborts_deploy (list Reply) Scripted.remote Scripted.proc
            Scripted.null_entry_request
            [JObj [("key", JStr "API_KEY"); ("value", JStr "k")]; JNull]
            [Scripted.deployment_created] _ _ _ _ _ _); try reflexivity.
  exists JNull. split; [| reflexivity].
  apply list_elem_of_further, list_elem_of_here.
Defined.

Lemma deploy_answer_lost_witness :
  exists message,
    deploy (list Reply) Scripted.remote Scripted.proc Scripted.deploy_request
      [Resolved JUndefined] =
    (Normal (envelope "Failed to trigger deployment" (TypeError message)),
     [deploy_call "tok" Scripted.deploy_payload], []).
Proof.
  refine (deploy_answer_lost (list Reply) Scripted.remote Scripted.proc
            Scripted.deploy_request "tok" Scripted.deploy_payload JUndefined
            [Resolved JUndefined] _ _ _ _ _ _ _ _); reflexivity.
Defined.

Lemma rejection_details_witness :
  exists details,
    deploy_status (list Reply) Scripted.remote Scripted.proc "dpl_9"
      [Scripted.not_found_reply] =
    (Normal {| status := 500;
               body := JObj [("error", JStr "Failed to get deployment status");
                             ("details", details)] |},
     [deployment_call "tok" "dpl_9"], []) /\
    (true = true -> details = JStr "Deployment not found") /\
    (true = false -> details = JStr "Request failed with status code 404").
Proof.
  refine (rejection_details (list Reply) Scripted.remote Scripted.proc "dpl_9" "tok"
            "Request failed with status code 404"
            (JObj [("error", JObj [("code", JStr "not_found");
                                   ("message", JStr "Deployment not found")])])
            [Scripted.not_found_reply] _ _); reflexivity.
Defined.

Lemma env_writes_come_from_env_witness :
  exists project key value,
    to_string (JStr "prj_1") = Normal project /\
    (key, value) ∈ entries Scripted.env_entries /\
    call_method (env_write "tok" "prj_1" "API_KEY" (JStr "k")) = POST /\
    call_url (env_write "tok" "prj_1" "API_KEY" (JStr "k")) =
    "/v9/projects/" +:+ project +:+ "/env" /\
    call_data (env_write "tok" "prj_1" "API_KEY" (JStr "k")) =
    EnvData {| ew_key := key; ew_value := value;
               ew_type := "encrypted";
               ew_target := ["production"; "preview"] |}.
Proof.
  refine (env_writes_come_from_env (list Reply) Scripted.remote [] Scripted.proc
            Scripted.env_request Scripted.second_write_fails
            (env_write "tok" "prj_1" "API_KEY" (JStr "k")) _).
  apply list_elem_of_here.
Defined.

Lemma no_token_no_call_witness :
  (app (list Reply) Scripted.remote [] Scripted.no_token_proc Scripted.deploy_request
     [Scripted.deployment_created]).1.2 = [].
Proof.
  refine (no_token_no_call (list Reply) Scripted.remote [] Scripted.no_token_proc
            Scripted.deploy_request [Scripted.deployment_created] _).
  left. reflexivity.
Defined.

Lemma env_without_entries_succeeds_witness :
  set_env (list Reply) Scripted.remote [] Scripted.proc Scripted.scalar_env_request [] =
  (Normal env_set, [], []).
Proof.
  refine (env_without_entries_succeeds (list Reply) Scripted.remote [] Scripted.proc
            Scripted.scalar_env_request "tok" [] _ _ _ _ _); reflexivity.
Defined.

Lemma status_without_metadata_witness :
  exists r,
    (deploy_status (list Reply) Scripted.remote Scripted.proc "dpl_1"
       [Resolved Scripted.deployment_found]).1.1 = Normal r /\ status r = 200 /\
    get_opt (get_opt (body r) "deployment") "creator" = JUndefined /\
    get_opt (get_opt (body r) "deployment") "meta" =
    JObj [("githubCommitRef", JUndefined);
          ("githubCommitMessage", JUndefined);
          ("githubCommitAuthorName", JUndefined)].
Proof.
  refine (status_without_metadata (list Reply) Scripted.remote Scripted.proc
            "dpl_1" "tok" "app.vercel.app" Scripted.deployment_found
            [Resolved Scripted.deployment_found] _ _ _ _ _ _); reflexivity.
Defined.

(** The first [API_KEY] of three variables is overwritten by the last. *)
Example env_variables_folded :
  exists d,
    deploymentData (JStr "app") (JObj [("repo", JStr "org/repo")]) JUndefined JUndefined
      (JArr Scripted.env_variables) = Normal d /\
    dd_env d = Some (<["API_KEY" := JStr "new"]> (<["REGION" := JStr "iad1"]>
                       (<["API_KEY" := JStr "old"]> ∅))) /\
    (dd_env d ≫= (.!! "API_KEY")) = Some (JStr "new").
Proof.
  eexists. split; [reflexivity |]. split; [reflexivity |].
  simpl. apply lookup_insert_eq.
Qed.

(** An [:id] is decoded before the handler sees it, and one that does not
    decode is answered by the error-handling middleware, whatever the
    method: no handler runs and nothing is asked of the platform. *)
Example id_is_decoded :
  Scripted.run (Scripted.request DELETE "/api/deploy/dpl%5F1" JUndefined) [Resolved JNull] =
  (Normal (cancelled "dpl_1"), [cancel_call "tok" "dpl_1"], []) /\
  Scripted.run (Scripted.request GET "/api/deploy/%zz/status" JUndefined) [Resolved JNull] =
  (Normal (status_json 500 (JObj [("error", JStr "Internal server error");
                                  ("message", JUndefined)])),
   [], [Resolved JNull]) /\
  Scripted.run (Scripted.request PUT "/api/deploy/%zz/status" JUndefined) [Resolved JNull] =
  (Normal (status_json 500 (JObj [("error", JStr "Internal server error");
                                  ("message", JUndefined)])),
   [], [Resolved JNull]).
Proof. repeat (split; [reflexivity |]). reflexivity. Qed.
